(** * Parsing-search_gost: catalogue downloader and PDF highlighter

    A shallow embedding of [download_kms_docs.py] and
    [search_and_highlight.py], and the properties of their naming,
    classification, de-duplication and exit-code logic. *)

From Stdlib Require Import ZArith NArith QArith Qabs List Ascii String Lia.
From stdpp Require Import base list gmap pretty sorting.

Set Default Proof Using "Type*".

(** * Python strings

    A Python [str] is a sequence of Unicode code points; a code point is a
    natural number. *)

Abbreviation pystr := (list N).

(** An ASCII literal as a [str]. *)
Fixpoint lit (s : string) : pystr :=
  match s with
  | EmptyString => []
  | String a r => N_of_ascii a :: lit r
  end.

Definition SPACE : N := 32.
Definition UNDERSCORE : N := 95.
Definition AMP : N := 38.
Definition SLASH : N := 47.
Definition DOT : N := 46.
Definition SEMICOLON : N := 59.

(** [str.isspace] on one code point; the regular expression class [\s] on a
    [str] pattern is the same set. *)
Definition isspace (c : N) : bool :=
  ((9 <=? c) && (c <=? 13) || (28 <=? c) && (c <=? 32) || (c =? 133) || (c =? 160)
   || (c =? 5760) || (8192 <=? c) && (c <=? 8202) || (c =? 8232) || (c =? 8233)
   || (c =? 8239) || (c =? 8287) || (c =? 12288))%N.

(** The character class of both sanitizers: the code points 0 to 31, angle
    brackets, colon, double quote, slash, backslash, pipe, question mark and
    asterisk. *)
Definition illegal (c : N) : bool :=
  ((c <=? 31) || (c =? 60) || (c =? 62) || (c =? 58) || (c =? 34) || (c =? 47)
   || (c =? 92) || (c =? 124) || (c =? 63) || (c =? 42))%N.

Fixpoint lstrip (s : pystr) : pystr :=
  match s with
  | [] => []
  | c :: r => if isspace c then lstrip r else s
  end.

Fixpoint rstrip (s : pystr) : pystr :=
  match s with
  | [] => []
  | c :: r =>
      match rstrip r with
      | [] => if isspace c then [] else [c]
      | r' => c :: r'
      end
  end.

(** [s.strip()] *)
Definition strip (s : pystr) : pystr := rstrip (lstrip s).

(** [re.sub] of that class by an underscore. *)
Definition sub_illegal (s : pystr) : pystr :=
  map (fun c => if illegal c then UNDERSCORE else c) s.

(** [re.sub] of every maximal run of white space by one space: [in_run]
    tells that the previous code point was white space, whose run has
    already produced its single space. *)
Fixpoint sub_ws_from (in_run : bool) (s : pystr) : pystr :=
  match s with
  | [] => []
  | c :: r =>
      if isspace c
      then (if in_run then sub_ws_from true r else SPACE :: sub_ws_from true r)
      else c :: sub_ws_from false r
  end.

Definition sub_ws (s : pystr) : pystr := sub_ws_from false s.

(** [x or d] on strings: the empty string is false. *)
Definition or_default (x d : pystr) : pystr :=
  match x with [] => d | _ => x end.

(** [needle in hay], [s.startswith(p)], [s.endswith(p)] *)
Fixpoint startswith (p s : pystr) : bool :=
  match p, s with
  | [], _ => true
  | _ :: _, [] => false
  | a :: p', b :: s' => (a =? b)%N && startswith p' s'
  end.

Fixpoint contains (needle hay : pystr) : bool :=
  startswith needle hay ||
  match hay with
  | [] => false
  | _ :: r => contains needle r
  end.

Definition endswith (p s : pystr) : bool := startswith (rev p) (rev s).

(** [spaced b t]: every white-space code point of [t] is a plain space and
    follows a code point that is not white space ([b] tells whether white
    space precedes [t]). *)
Fixpoint spaced (b : bool) (t : pystr) : bool :=
  match t with
  | [] => true
  | c :: r =>
      if isspace c then (c =? SPACE)%N && negb b && spaced true r
      else spaced false r
  end.

(** * Library services

    The functions of Python's standard library that the scripts call and
    whose tables are not part of the repository: every result below holds
    for each implementation of them. *)

Record ParseResult := { url_path : pystr; url_query : pystr }.

Class PyLib := {
  (** [s.lower()], [s.upper()], [s.capitalize()] *)
  str_lower : pystr -> pystr;
  str_upper : pystr -> pystr;
  str_capitalize : pystr -> pystr;
  (** [html._charref.sub(html._replace_charref, s)], the part of
      [html.unescape] that runs when [s] has an ampersand *)
  charref_sub : pystr -> pystr;
  (** [mimetypes.guess_extension] *)
  guess_extension : pystr -> option pystr;
  (** [urllib.parse.urlparse], the two components the scripts read *)
  urlparse : pystr -> ParseResult;
  (** [urllib.parse.urljoin] *)
  urljoin : pystr -> pystr -> pystr
}.

Section Sanitizers.
Context {lib : PyLib}.

(** [html.unescape]: a string without an ampersand is returned as it is,
    in any other the character references are replaced. *)
Definition html_unescape (s : pystr) : pystr :=
  if existsb (N.eqb AMP) s then charref_sub s else s.

(** download_kms_docs.py, [normalize_text] (its argument is never [None]
    here: it is the result of [get_text]). *)
Definition normalize_text (s : pystr) : pystr :=
  let s := map (fun c => if ((c =? 160) || (c =? 8203) || (c =? 65279))%N
                         then SPACE else c) s in
  let s := sub_ws (strip s) in
  str_lower s.

(** The text of [sanitize_filename] before the 180 cut. *)
Definition clean_filename (name : pystr) : pystr :=
  let name := strip (html_unescape name) in
  let name := sub_illegal name in
  sub_ws name.

(** download_kms_docs.py, [sanitize_filename] *)
Definition sanitize_filename (name : pystr) : pystr :=
  or_default (take 180 (clean_filename name)) (lit "document").

End Sanitizers.

(** search_and_highlight.py, [sanitize_for_fs] *)
Definition sanitize_for_fs (name : pystr) : pystr :=
  let name := strip (sub_illegal name) in
  let name := sub_ws name in
  or_default (take 120 name) (lit "query").

(** * URLs, content types and extensions *)

(** [s.rfind(c)]: the index of the last [c], or -1. *)
Fixpoint rfind_from (c : N) (s : pystr) (i last : Z) : Z :=
  match s with
  | [] => last
  | d :: r => rfind_from c r (i + 1)%Z (if (d =? c)%N then i else last)
  end.

Definition rfind (c : N) (s : pystr) : Z := rfind_from c s 0%Z (-1)%Z.

(** [os.path.splitext] (posixpath): the extension starts at the last dot of
    the last path component, unless only dots precede it there. *)
Definition splitext (p : pystr) : pystr * pystr :=
  let sepIndex := rfind SLASH p in
  let dotIndex := rfind DOT p in
  if (sepIndex <? dotIndex)%Z then
    let filename := drop (Z.to_nat (sepIndex + 1)) (take (Z.to_nat dotIndex) p) in
    if forallb (N.eqb DOT) filename then (p, [])
    else (take (Z.to_nat dotIndex) p, drop (Z.to_nat dotIndex) p)
  else (p, []).

(** [os.path.join(a, b)] (posixpath) *)
Definition path_join (a b : pystr) : pystr :=
  if startswith [SLASH] b then b
  else if (match a with [] => true | _ => false end) || endswith [SLASH] a
       then a ++ b
       else a ++ SLASH :: b.

(** [s.split(";")[0]] *)
Fixpoint before_semicolon (s : pystr) : pystr :=
  match s with
  | [] => []
  | c :: r => if (c =? SEMICOLON)%N then [] else c :: before_semicolon r
  end.

Section Extensions.
Context {lib : PyLib}.

(** download_kms_docs.py, [is_pdf_href] *)
Definition is_pdf_href (href : pystr) : bool :=
  let parsed := urlparse href in
  let path := str_lower (url_path parsed) in
  let query := str_lower (url_query parsed) in
  contains (lit ".pdf") path || contains (lit ".pdf") query
  || endswith (lit ".pdf") (str_lower href).

(** The extension that the declared content type gives, if any: the body of
    [if content_type:] in [guess_ext]. *)
Definition content_type_ext (content_type : pystr) : option pystr :=
  let ct := str_lower (strip (before_semicolon content_type)) in
  if decide (ct = lit "application/pdf") then Some (lit ".pdf")
  else
    let ext := str_lower (default [] (guess_extension ct)) in
    match ext with [] => None | _ => Some ext end.

(** The extension that the path of the URL gives: the last two lines of
    [guess_ext]. *)
Definition url_ext (url : pystr) : pystr :=
  let ext := str_lower (snd (splitext (url_path (urlparse url)))) in
  or_default ext (lit ".bin").

(** download_kms_docs.py, [guess_ext] *)
Definition guess_ext (content_type : option pystr) (url : pystr) : pystr :=
  if is_pdf_href url then lit ".pdf"
  else
    match content_type with
    | Some (c :: ct) =>
        match content_type_ext (c :: ct) with
        | Some ext => ext
        | None => url_ext url
        end
    | _ => url_ext url
    end.

End Extensions.

(** * The file system

    A path names a regular file with its bytes, or a directory. *)

Inductive node :=
  | File (content : list N)
  | Dir.

Abbreviation FS := (gmap pystr node).

(** [os.path.exists] *)
Definition path_exists (fs : FS) (p : pystr) : bool :=
  match fs !! p with Some _ => true | None => false end.

(** [str(i)] *)
Definition decimal (i : N) : pystr := lit (pretty i).

(** The name probed at round [i] of [unique_path]. *)
Definition candidate (folder stem ext : pystr) (i : N) : pystr :=
  path_join folder (stem ++ lit " (" ++ decimal i ++ lit ")" ++ ext).

(** The [while True] loop of [unique_path], at most [fuel] rounds. *)
Fixpoint unique_path_loop (fuel : nat) (fs : FS) (folder stem ext : pystr)
    (i : N) : option pystr :=
  match fuel with
  | O => None
  | S fuel' =>
      let cand := candidate folder stem ext i in
      if negb (path_exists fs cand) then Some cand
      else unique_path_loop fuel' fs folder stem ext (i + 1)%N
  end.

(** download_kms_docs.py, [unique_path] *)
Definition unique_path (fuel : nat) (fs : FS) (folder stem ext : pystr)
  : option pystr :=
  let p := path_join folder (stem ++ ext) in
  if negb (path_exists fs p) then Some p
  else unique_path_loop fuel fs folder stem ext 1%N.

(** The answer of the server to a GET: [None] when [session.get] or
    [raise_for_status] raises. *)
Record Response := { content_type : option pystr; body : list N }.

Abbreviation Net := (pystr -> option Response).

Section Download.
Context {lib : PyLib}.

(** download_kms_docs.py, [download]: the path written, or [None] when an
    exception leaves the function, and the file system afterwards.
    [open(tmp, "wb")] and [os.replace] raise on a directory. *)
Definition download (net : Net) (file_url dest_path : pystr) (fs : FS)
  : option pystr * FS :=
  match net file_url with
  | None => (None, fs)
  | Some r =>
      let ext := guess_ext (content_type r) file_url in
      let stem := fst (splitext dest_path) in
      let dest_path := stem ++ ext in
      let tmp := dest_path ++ lit ".part" in
      match fs !! tmp with
      | Some Dir => (None, fs)
      | _ =>
          let fs1 := <[tmp := File (body r)]> fs in
          match fs1 !! dest_path with
          | Some Dir => (None, fs1)
          | _ => (Some dest_path, <[dest_path := File (body r)]> (delete tmp fs1))
          end
      end
  end.

End Download.

(** * HTML tables

    What the scripts read of a parsed table: its rows in document order;
    of a row, whether it stands in the table's [thead] and its [th] and [td]
    cells; of a cell, its tag, its text as [get_text(" ", strip=True)] gives
    it and the [href] of each of its links, in order. *)

Record Cell := { is_th : bool; cell_text : pystr; cell_links : list pystr }.
Record Row := { in_thead : bool; row_cells : list Cell }.
Abbreviation Table := (list Row).

(** The designation marker, the Cyrillic letters o-b-o-z-n. *)
Definition MARKER : pystr := [1086; 1073; 1086; 1079; 1085]%N.

(** The numero sign, the heading of the row-number column. *)
Definition NUMERO : pystr := [8470]%N.

Definition ONLY_PDF : bool := true.

(** The [for tr in table.find_all("tr")] loop of [detect_designation_col]
    that looks for the header row. *)
Fixpoint scan_header_row (rows : list Row) (header_row : option Row) : option Row :=
  match rows with
  | [] => header_row
  | tr :: rest =>
      match row_cells tr with
      | [] => scan_header_row rest header_row
      | _ :: _ =>
          if existsb is_th (row_cells tr) then Some tr
          else scan_header_row rest
                 (match header_row with None => Some tr | Some _ => header_row end)
      end
  end.

(** The header row: the first row of the [thead], else the first row with a
    [th], else the first row with cells. *)
Definition find_header_row (table : Table) : option Row :=
  match List.find in_thead table with
  | Some tr => Some tr
  | None => scan_header_row table None
  end.

(** [for idx, h in enumerate(headers): if marker in h: return idx] *)
Fixpoint marker_index (headers : list pystr) (idx : nat) : option nat :=
  match headers with
  | [] => None
  | h :: rest => if contains MARKER h then Some idx else marker_index rest (S idx)
  end.

(** [cells[col].find("a", href=True)] on a row that has a cell [col]. *)
Definition has_link_at (col : nat) (r : Row) : bool :=
  match row_cells r !! col with
  | Some c => match cell_links c with [] => false | _ :: _ => true end
  | None => false
  end.

(** [max(len(r.find_all(["td", "th"])) for r in rows), default=0] *)
Definition max_cols (rows : list Row) : nat :=
  foldr Nat.max 0 (map (fun r => length (row_cells r)) rows).

(** The counter [cnt] of one column: the loop runs over [rows[1:]]. *)
Definition count_links (rows : list Row) (col : nat) : nat :=
  length (filter (fun r => has_link_at col r = true) (tail rows)).

Definition link_counts (rows : list Row) : list nat :=
  map (count_links rows) (seq 0 (max_cols rows)).

(** [max(range(len(l)), key=lambda i: l[i])]: the first index of the largest
    value; [best] is the index kept so far and [v] its value. *)
Fixpoint argmax_from (l : list nat) (i best v : nat) : nat :=
  match l with
  | [] => best
  | w :: rest => if v <? w then argmax_from rest (S i) i w
                 else argmax_from rest (S i) best v
  end.

Definition argmax (l : list nat) : option nat :=
  match l with
  | [] => None
  | v :: rest => Some (argmax_from rest 1 0 v)
  end.

Section Catalog.
Context {lib : PyLib}.

Definition headers_of (header_row : option Row) : list pystr :=
  match header_row with
  | Some hr => map (fun c => normalize_text (cell_text c)) (row_cells hr)
  | None => []
  end.

(** download_kms_docs.py, [detect_designation_col] *)
Definition detect_designation_col (table : Table) : option nat :=
  let headers := headers_of (find_header_row table) in
  match marker_index headers 0 with
  | Some idx => Some idx
  | None =>
      let counts := link_counts table in
      if existsb (fun c => 0 <? c) counts then argmax counts else None
  end.

(** download_kms_docs.py, [pick_pdf_link_from_cell] *)
Definition pick_pdf_link_from_cell (cell : Cell) : option pystr :=
  match List.find is_pdf_href (cell_links cell) with
  | Some a => Some a
  | None => head (cell_links cell)
  end.

(** The body of the loop of [extract_rows]: the pair a row contributes. *)
Definition extract_row (designation_idx : nat) (tr : Row) : option (pystr * pystr) :=
  match row_cells tr !! designation_idx with
  | None => None
  | Some cell =>
      let designation_raw := normalize_text (cell_text cell) in
      if contains MARKER designation_raw
         || bool_decide (designation_raw = []) || bool_decide (designation_raw = NUMERO)
      then None
      else
        match pick_pdf_link_from_cell cell with
        | None => None
        | Some a =>
            let href := strip a in
            if ONLY_PDF && negb (is_pdf_href href) then None
            else Some (sanitize_filename (cell_text cell), href)
        end
  end.

(** download_kms_docs.py, [extract_rows] *)
Definition extract_rows (table : Table) (designation_idx : nat) : list (pystr * pystr) :=
  omap (extract_row designation_idx) table.

(** download_kms_docs.py, [find_target_table] *)
Fixpoint find_target_table (tables : list Table) : option (Table * nat) :=
  match tables with
  | [] => None
  | t :: rest =>
      match detect_designation_col t with
      | Some idx => Some (t, idx)
      | None => find_target_table rest
      end
  end.

End Catalog.

(** * Directories and the downloader's entry point *)

(** How a run ends: [sys.exit(code)] or the end of [main] (code 0), or an
    exception that nothing catches, which Python reports with status 1. *)
Inductive outcome :=
  | Exit (code : Z)
  | Traceback.

Definition exit_status (o : outcome) : Z :=
  match o with Exit c => c | Traceback => 1%Z end.

(** The path and its ancestors, outermost first. *)
Fixpoint ancestors_from (seen rest : pystr) : list pystr :=
  match rest with
  | [] => [seen]
  | c :: r =>
      if (c =? SLASH)%N && negb (bool_decide (seen = []))
      then seen :: ancestors_from (seen ++ [c]) r
      else ancestors_from (seen ++ [c]) r
  end.

Definition is_file (fs : FS) (p : pystr) : bool :=
  match fs !! p with Some (File _) => true | _ => false end.

(** [os.makedirs(p, exist_ok=True)] and [Path.mkdir(parents=True,
    exist_ok=True)]: [None] when a regular file is in the way. *)
Definition mkdir_p (p : pystr) (fs : FS) : option FS :=
  if existsb (is_file fs) (ancestors_from [] p) then None
  else Some (foldr (fun d m => <[d := Dir]> m) fs (ancestors_from [] p)).

Definition URL : pystr := lit "https://new-shop.ksm.kz/egfntd/ntdgo/kds/4.php".

Section DownloaderMain.
Context {lib : PyLib}.

(** The body of the [for designation, href in rows] loop of [main]: the
    counters [ok] and [err] and the file system after one document. The
    probe of [unique_path] gets more rounds than the file system has
    entries. *)
Definition fetch_one (net : Net) (target_dir : pystr)
    (st : nat * nat * FS) (row : pystr * pystr) : nat * nat * FS :=
  let '(ok, err, fs) := st in
  let file_url := urljoin URL (snd row) in
  match unique_path (S (size fs)) fs target_dir (fst row) (lit ".pdf") with
  | None => (ok, err, fs)
  | Some dest =>
      match download net file_url dest fs with
      | (Some _, fs') => (S ok, err, fs')
      | (None, fs') => (ok, S err, fs')
      end
  end.

(** download_kms_docs.py, [main]. [page] is the parsed catalogue page
    ([None] when fetching it raised), [target_dir] the folder of the day
    that [today_folder] names. *)
Definition main_kms (page : option (list Table)) (net : Net)
    (target_dir : pystr) (fs : FS) : outcome * (nat * nat * FS) :=
  match page with
  | None => (Exit 1, (0, 0, fs))
  | Some soup =>
      match find_target_table soup with
      | None => (Exit 2, (0, 0, fs))
      | Some (table, designation_idx) =>
          match extract_rows table designation_idx with
          | [] => (Exit 3, (0, 0, fs))
          | rows =>
              match mkdir_p target_dir fs with
              | None => (Traceback, (0, 0, fs))
              | Some fs1 => (Exit 0, foldl (fetch_one net target_dir) (0, 0, fs1) rows)
              end
          end
      end
  end.

End DownloaderMain.

(** * Searching and highlighting *)

(** A rectangle of PyMuPDF; a coordinate, a binary floating-point number, is
    the rational it denotes. *)
Record Rect := { x0 : Q; y0 : Q; x1 : Q; y1 : Q }.

(** Rounding to the nearest integer, ties to the even one. *)
Definition round_half_even (q : Q) : Z :=
  let n := Qnum q in
  let d := Zpos (Qden q) in
  let f := (n / d)%Z in
  match (2 * (n mod d) ?= d)%Z with
  | Lt => f
  | Gt => (f + 1)%Z
  | Eq => if Z.even f then f else (f + 1)%Z
  end.

(** [round(x, 2)], in hundredths: Python rounds the exact value of the
    float, ties to even. *)
Definition round2 (x : Q) : Z := round_half_even (x * 100).

Abbreviation RectKey := (Z * Z * Z * Z)%type.

Definition rect_key (r : Rect) : RectKey :=
  (round2 (x0 r), round2 (y0 r), round2 (x1 r), round2 (y1 r)).

(** The loop of [_dedup_rects], from a given [seen]. *)
Fixpoint dedup_from (seen : gset RectKey) (rects : list Rect) : list Rect :=
  match rects with
  | [] => []
  | r :: rest =>
      if decide (rect_key r ∈ seen) then dedup_from seen rest
      else r :: dedup_from ({[rect_key r]} ∪ seen) rest
  end.

(** search_and_highlight.py, [_dedup_rects] *)
Definition _dedup_rects (rects : list Rect) : list Rect := dedup_from ∅ rects.

(** A page: its 0-based number and the search primitive of the engine. *)
Record Page := { number : N; search_for : pystr -> list Rect }.

(** An open document: its pages, and the bytes [doc.save] writes once the
    given highlights (page number and rectangle) have been added. *)
Record Doc := { doc_pages : list Page; doc_save : list (N * Rect) -> list N }.

(** [fitz.open] on the bytes of a file: [None] when it raises. *)
Abbreviation Engine := (list N -> option Doc).

(** [pdf_path.name] *)
Definition basename (p : pystr) : pystr := drop (Z.to_nat (rfind SLASH p + 1)) p.

Section Highlighter.
Context {lib : PyLib}.

(** The set of case variants, read in this order. *)
Definition variants (query : pystr) : list pystr :=
  remove_dups [query; str_lower query; str_upper query; str_capitalize query].

(** search_and_highlight.py, [_search_rects] *)
Definition _search_rects (page : Page) (query : pystr) : list Rect :=
  _dedup_rects (flat_map (search_for page) (variants query)).

(** The [for r in rects] loop: one highlight and one hit per rectangle. *)
Definition annotate (page : Page) (st : N * list (N * Rect)) (r : Rect)
  : N * list (N * Rect) :=
  ((fst st + 1)%N, snd st ++ [(number page, r)]).

(** The [for page in doc] loop of [highlight_file]: the counter [hits], the
    set [pages] and the highlights added so far. *)
Fixpoint scan_pages (pages : list Page) (query : pystr)
    (hits : N) (pset : gset N) (annots : list (N * Rect))
  : N * gset N * list (N * Rect) :=
  match pages with
  | [] => (hits, pset, annots)
  | page :: rest =>
      match _search_rects page query with
      | [] => scan_pages rest query hits pset annots
      | rects =>
          let '(hits', annots') := foldl (annotate page) (hits, annots) rects in
          scan_pages rest query hits' ({[(number page + 1)%N]} ∪ pset) annots'
      end
  end.

(** search_and_highlight.py, [highlight_file]: the triple it returns, or
    [None] when an exception leaves it, and the file system afterwards. *)
Definition highlight_file (engine : Engine) (pdf_path query out_dir : pystr)
    (fs : FS) : option (N * gset N * option pystr) * FS :=
  match fs !! pdf_path with
  | Some (File bytes) =>
      match engine bytes with
      | None => (None, fs)
      | Some doc =>
          let '(hits, pages, annots) := scan_pages (doc_pages doc) query 0%N ∅ [] in
          if (0 <? hits)%N then
            match mkdir_p out_dir fs with
            | None => (None, fs)
            | Some fs1 =>
                let out_path := path_join out_dir (basename pdf_path) in
                match fs1 !! out_path with
                | Some Dir => (None, fs1)
                | _ => (Some (hits, pages, Some out_path),
                        <[out_path := File (doc_save doc annots)]> fs1)
                end
            end
          else (Some (hits, pages, None), fs)
      end
  | _ => (None, fs)
  end.

End Highlighter.

(** search_and_highlight.py, [iter_pdfs]: the regular files below [root]
    whose name ends in .pdf. *)
Definition iter_pdfs (root : pystr) (fs : FS) : list pystr :=
  let below := if endswith [SLASH] root then root else root ++ [SLASH] in
  map fst (List.filter
             (fun kv => startswith below (fst kv) && endswith (lit ".pdf") (fst kv)
                        && match snd kv with File _ => true | Dir => false end)
             (map_to_list fs)).

Definition OPEN_AFTER_SAVE : bool := true.
Definition OPEN_LIMIT : nat := 10.

(** What a run of the search leaves: how it ended, the file system, the
    list [matched_files], [total_hits] and the files handed to the viewer. *)
Record SearchRun := {
  run_outcome : outcome;
  run_fs : FS;
  matched_files : list (pystr * N * list N);
  total_hits : N;
  opened : list pystr
}.

(** The query that [main] searches for: the argument, or the typed line. *)
Definition effective_query (arg_query : option pystr) (typed : pystr) : pystr :=
  match arg_query with
  | Some (c :: q) => c :: q
  | _ => strip typed
  end.

Section SearchMain.
Context {lib : PyLib}.

(** The body of the [for pdf in pdfs] loop of [main]. *)
Definition scan_one (engine : Engine) (query out_dir : pystr)
    (st : list (pystr * N * list N) * N * FS) (pdf : pystr)
  : list (pystr * N * list N) * N * FS :=
  let '(matched, total, fs) := st in
  match highlight_file engine pdf query out_dir fs with
  | (Some (hits, pages, Some saved), fs') =>
      if (0 <? hits)%N
      then (matched ++ [(saved, hits, merge_sort N.le (elements pages))],
            (total + hits)%N, fs')
      else (matched, total, fs')
  | (_, fs') => (matched, total, fs')
  end.

(** search_and_highlight.py, [build_out_dir]; [stamp] is the time of the
    run as [strftime] prints it. *)
Definition build_out_dir (out_root stamp query : pystr) : pystr :=
  path_join out_root (stamp ++ lit "__" ++ sanitize_for_fs query).

(** search_and_highlight.py, [main]. [arg_query] is the positional argument,
    [typed] the line read when it is missing. *)
Definition main_search (engine : Engine) (arg_query : option pystr)
    (typed docs_dir out_root stamp : pystr) (no_open : bool) (fs : FS)
  : SearchRun :=
  let query := effective_query arg_query typed in
  let stop o fs := {| run_outcome := o; run_fs := fs; matched_files := [];
                      total_hits := 0; opened := [] |} in
  match query with
  | [] => stop (Exit 1) fs
  | _ =>
      let out_dir := build_out_dir out_root stamp query in
      let auto_open := negb no_open && OPEN_AFTER_SAVE in
      if negb (path_exists fs docs_dir) then stop (Exit 2) fs
      else
        match iter_pdfs docs_dir fs with
        | [] => stop (Exit 3) fs
        | pdfs =>
            match mkdir_p out_dir fs with
            | None => stop Traceback fs
            | Some fs1 =>
                let '(matched, total, fs2) :=
                  foldl (scan_one engine query out_dir) ([], 0%N, fs1) pdfs in
                {| run_outcome := Exit 0; run_fs := fs2;
                   matched_files := matched; total_hits := total;
                   opened := if auto_open
                             then map (fun m => fst (fst m)) (take OPEN_LIMIT matched)
                             else [] |}
            end
        end
  end.

End SearchMain.

(** * An implementation of the library services

    Enough of Python's library to run the scripts on ASCII and Cyrillic
    text and on plain URLs; it is used for the worked examples only. *)

Module Sample.

Definition lower_char (c : N) : N :=
  if ((65 <=? c) && (c <=? 90) || (1040 <=? c) && (c <=? 1071))%N then (c + 32)%N
  else if ((1024 <=? c) && (c <=? 1039))%N then (c + 80)%N
  else c.

Definition upper_char (c : N) : N :=
  if ((97 <=? c) && (c <=? 122) || (1072 <=? c) && (c <=? 1103))%N then (c - 32)%N
  else if ((1104 <=? c) && (c <=? 1119))%N then (c - 80)%N
  else c.

Definition lower (s : pystr) : pystr := map lower_char s.
Definition upper (s : pystr) : pystr := map upper_char s.

Definition capitalize (s : pystr) : pystr :=
  match s with
  | [] => []
  | c :: r => upper_char c :: lower r
  end.

(** The references [&amp;], [&lt;], [&gt;] and [&quot;]; [skip] code
    points of a reference already replaced remain to be passed over. *)
Fixpoint charrefs_from (skip : nat) (s : pystr) : pystr :=
  match s with
  | [] => []
  | c :: r =>
      match skip with
      | S k => charrefs_from k r
      | O =>
          if negb (c =? AMP)%N then c :: charrefs_from 0 r
          else if startswith (lit "amp;") r then AMP :: charrefs_from 4 r
          else if startswith (lit "lt;") r then 60%N :: charrefs_from 3 r
          else if startswith (lit "gt;") r then 62%N :: charrefs_from 3 r
          else if startswith (lit "quot;") r then 34%N :: charrefs_from 5 r
          else c :: charrefs_from 0 r
      end
  end.

Definition types_map : list (pystr * pystr) :=
  [ (lit "application/pdf", lit ".pdf"); (lit "text/html", lit ".html");
    (lit "text/plain", lit ".txt"); (lit "application/zip", lit ".zip");
    (lit "image/png", lit ".png") ].

Definition mime_extension (ct : pystr) : option pystr :=
  snd <$> List.find (fun kv => bool_decide (fst kv = lower ct)) types_map.

(** The text before the first [c], and the text after it if there is one. *)
Fixpoint break_at (c : N) (s : pystr) : pystr * option pystr :=
  match s with
  | [] => ([], None)
  | d :: r =>
      if (d =? c)%N then ([], Some r)
      else let '(a, b) := break_at c r in (d :: a, b)
  end.

Definition is_alpha (c : N) : bool :=
  ((65 <=? c) && (c <=? 90) || (97 <=? c) && (c <=? 122))%N.

Definition scheme_char (c : N) : bool :=
  is_alpha c || ((48 <=? c) && (c <=? 57) || (c =? 43) || (c =? 45) || (c =? 46))%N.

(** [urlsplit], first step: the scheme and what follows its colon. *)
Definition split_scheme (url : pystr) : pystr * pystr :=
  match break_at 58 url with
  | (c :: pre, Some rest) =>
      if is_alpha c && forallb scheme_char pre then (c :: pre, rest) else ([], url)
  | _ => ([], url)
  end.

Fixpoint until_delim (s : pystr) : pystr * pystr :=
  match s with
  | [] => ([], [])
  | c :: r =>
      if ((c =? 47) || (c =? 63) || (c =? 35))%N then ([], s)
      else let '(a, b) := until_delim r in (c :: a, b)
  end.

(** Second step: the network location after a double slash. *)
Definition split_netloc (url : pystr) : pystr * pystr :=
  if startswith (lit "//") url then until_delim (drop 2 url) else ([], url).

(** [urlparse]: scheme, netloc, path without its parameters, query. *)
Definition parse (url : pystr) : pystr * pystr * pystr * pystr :=
  let '(scheme, rest) := split_scheme url in
  let '(netloc, rest) := split_netloc rest in
  let rest := fst (break_at 35 rest) in
  let '(path, query) := break_at 63 rest in
  let cut := Z.to_nat (rfind SLASH path + 1) in
  let path := take cut path ++ fst (break_at SEMICOLON (drop cut path)) in
  (scheme, netloc, path, default [] query).

Definition parse_result (url : pystr) : ParseResult :=
  let '(_, _, path, query) := parse url in
  {| url_path := path; url_query := query |}.

(** [urljoin] on a reference without dot segments. *)
Definition join (base ref : pystr) : pystr :=
  let '(bscheme, bnetloc, bpath, _) := parse base in
  let origin := bscheme ++ lit "://" ++ bnetloc in
  match fst (split_scheme ref) with
  | _ :: _ => ref
  | [] =>
      if startswith (lit "//") ref then bscheme ++ lit ":" ++ ref
      else if startswith [SLASH] ref then origin ++ ref
      else match ref with
           | [] => base
           | _ => origin ++ take (Z.to_nat (rfind SLASH bpath + 1)) bpath ++ ref
           end
  end.

Definition lib : PyLib :=
  {| str_lower := lower; str_upper := upper; str_capitalize := capitalize;
     charref_sub := charrefs_from 0; guess_extension := mime_extension;
     urlparse := parse_result; urljoin := join |}.

End Sample.

(** * Notions and data of the statements *)

(** The server of the examples: two pages served as [text/html], anything
    else fails. *)
Definition html_server : Net := fun url =>
  if bool_decide (url = lit "http://host/one")
  then Some {| content_type := Some (lit "text/html"); body := [1; 1; 1]%N |}
  else if bool_decide (url = lit "http://host/two")
  then Some {| content_type := Some (lit "text/html"); body := [2; 2]%N |}
  else None.

(** Two coordinates more than a hundredth apart. *)
Definition far (a b : Q) : Prop := (1 # 100 < Qabs (a - b))%Q.

Definition rect_far (r1 r2 : Rect) : Prop :=
  far (x0 r1) (x0 r2) \/ far (y0 r1) (y0 r2)
  \/ far (x1 r1) (x1 r2) \/ far (y1 r1) (y1 r2).

(** Three rectangles that differ in their left edge only: 1/512, 1/256 and
    1/128, all exact as binary floating-point numbers. *)
Definition rect_a : Rect := {| x0 := 1 # 512; y0 := 0; x1 := 1; y1 := 1 |}.
Definition rect_b : Rect := {| x0 := 1 # 256; y0 := 0; x1 := 1; y1 := 1 |}.
Definition rect_c : Rect := {| x0 := 1 # 128; y0 := 0; x1 := 1; y1 := 1 |}.

(** What the page loop keeps true of its counter and its set of pages. *)
Definition pages_agree (hits : N) (pset : gset N) : Prop :=
  (pset <> ∅ <-> (0 < hits)%N) /\ forall p, p ∈ pset -> (1 <= p)%N.

(** A corpus of two documents: [a.pdf] has the word on its second page,
    [b.pdf] nowhere. *)
Definition torque_page (n : N) : Page :=
  {| number := n;
     search_for := fun q => if bool_decide (q = lit "torque") then [rect_a] else [] |}.

Definition blank_page (n : N) : Page := {| number := n; search_for := fun _ => [] |}.

Definition sample_engine : Engine := fun bytes =>
  if bool_decide (bytes = [1]%N)
  then Some {| doc_pages := [blank_page 0; torque_page 1];
               doc_save := fun annots => [1; N.of_nat (length annots)]%N |}
  else if bool_decide (bytes = [0]%N)
  then Some {| doc_pages := [blank_page 0]; doc_save := fun _ => [0]%N |}
  else None.

Definition corpus : FS :=
  <[lit "docs" := Dir]> (<[lit "docs/a.pdf" := File [1]%N]>
    (<[lit "docs/b.pdf" := File [0]%N]> ∅)).

#[global] Instance Cell_eq_dec : EqDecision Cell.
Proof. solve_decision. Defined.

#[global] Instance Row_eq_dec : EqDecision Row.
Proof. solve_decision. Defined.

Definition td (text : string) (links : list pystr) : Cell :=
  {| is_th := false; cell_text := lit text; cell_links := links |}.

Definition th (text : pystr) (links : list pystr) : Cell :=
  {| is_th := true; cell_text := text; cell_links := links |}.

(** The heading of the designation column, capital O-b-o-z-n-a-ch-e-n-i-e. *)
Definition DESIGNATION : pystr :=
  [1054; 1073; 1086; 1079; 1085; 1072; 1095; 1077; 1085; 1080; 1077]%N.

(** A catalogue table: number, designation, note. *)
Definition catalog_table : Table :=
  [ {| in_thead := false;
       row_cells := [th NUMERO []; th DESIGNATION []; th (lit "Note") []] |};
    {| in_thead := false;
       row_cells := [td "1" []; td "ABC-123" [lit "files/abc.pdf"]; td "new" []] |} ].

(** A table with neither marker nor link. *)
Definition menu_table : Table :=
  [ {| in_thead := false; row_cells := [td "Home" []; td "About" []] |} ].

(** The count of C6 in the words of the specification: the rows other than
    the header row that have a link in the column. *)
Definition count_links_non_header (table : Table) (col : nat) : nat :=
  length (filter (fun r => has_link_at col r = true)
            (filter (fun r => Some r <> find_header_row table) table)).

(** A table whose first row is a data row with a link in column 0 and whose
    second row is made of [th] cells, one with a link in column 1. *)
Definition headed_second_table : Table :=
  [ {| in_thead := false;
       row_cells := [td "GOST 1" [lit "files/one.pdf"]; td "steel" []] |};
    {| in_thead := false;
       row_cells := [th (lit "Name") []; th (lit "Group") [lit "groups.php"]] |} ].

(** A table with a marked header and no row below it. *)
Definition empty_catalog_table : Table :=
  [ {| in_thead := false; row_cells := [th NUMERO []; th DESIGNATION []] |} ].

Ltac unpack :=
  repeat match goal with
  | H : ex _ |- _ => destruct H
  | H : _ /\ _ |- _ => destruct H
  | H : is_Some _ |- _ => destruct H
  end.

(** One exit code against one condition, once the run is known: the two
    differ and the condition is absurd, or they agree. *)
Ltac code_case :=
  split;
  [ intros Hcode; try discriminate Hcode; clear Hcode
  | intros Hcond; try reflexivity; exfalso; unpack; simplify_eq; try congruence ].

(** A name that is safe to put below a folder: not empty, at most [n] code
    points, no illegal code point, no white space at its start, and every
    white-space code point a plain space that follows a code point which is
    not white space. *)
Definition safe_name (n : nat) (t : pystr) : Prop :=
  t <> [] /\ length t <= n
  /\ (forall c, c ∈ t -> illegal c = false)
  /\ (forall c, head t = Some c -> isspace c = false)
  /\ (forall i c, t !! i = Some c -> isspace c = true ->
        c = SPACE /\ forall d, t !! S i = Some d -> isspace d = false).

Definition is_digit (c : N) : Prop := (48 <= c <= 57)%N.

(** A path is empty or ends in a slash: what stands before a name that
    [os.path.join] has put below a folder. *)
Definition dir_prefix (pre : pystr) : Prop := pre = [] \/ exists x, pre = x ++ [SLASH].

(** A server that answers every request with a PDF of three bytes. *)
Definition pdf_server : Net := fun _ =>
  Some {| content_type := Some (lit "application/pdf"); body := [37; 80; 68]%N |}.

(** The highlights that [highlight_file] adds to the pages of a document:
    for every page in order, its number with each rectangle that
    [_search_rects] finds on it. *)
Definition highlights {lib : PyLib} (pages : list Page) (query : pystr)
  : list (N * Rect) :=
  flat_map (fun page => map (pair (number page)) (_search_rects page query)) pages.

(** The sum of the hit counts of a list of matched files. *)
Definition sum_hits (matched : list (pystr * N * list N)) : N :=
  foldr (fun m acc => (snd (fst m) + acc)%N) 0%N matched.

(** An entry of [matched_files] as the summary prints it: the copy of one of
    the PDFs, under its own name in the output folder, with a positive count
    of hits and a list of pages that is not empty, strictly ascending and
    counted from 1. *)
Definition entry_ok (pdfs : list pystr) (out_dir : pystr)
    (m : pystr * N * list N) : Prop :=
  (exists pdf, pdf ∈ pdfs /\ fst (fst m) = path_join out_dir (basename pdf))
  /\ (0 < snd (fst m))%N
  /\ snd m <> []
  /\ StronglySorted N.lt (snd m)
  /\ Forall (fun p => (1 <= p)%N) (snd m).

(** Every folder on the way to [p] is there. *)
Definition dirs_made (p : pystr) (fs : FS) : Prop :=
  forall d, d ∈ ancestors_from [] p -> fs !! d = Some Dir.

Definition has_th (tr : Row) : bool := existsb is_th (row_cells tr).

Definition has_cells (tr : Row) : bool :=
  match row_cells tr with [] => false | _ :: _ => true end.

(** The short heading of the designation column, O-b-o-z-n and a full stop. *)
Definition DESIGNATION_SHORT : pystr := [1054; 1073; 1086; 1079; 1085; 46]%N.

(** A table whose header row marks two columns, 0 and 2. *)
Definition twice_marked_table : Table :=
  [ {| in_thead := false;
       row_cells := [th DESIGNATION []; th (lit "Note") []; th DESIGNATION_SHORT []] |};
    {| in_thead := false;
       row_cells := [td "ABC-123" [lit "files/abc.pdf"]; td "new" []; td "ABC" []] |} ].

(** A table whose [thead] has two rows, a title and the column headings,
    with the marker in the second one, at column 1; the links of the data
    row are in column 0. *)
Definition titled_table : Table :=
  [ {| in_thead := true; row_cells := [th (lit "Catalogue") []] |};
    {| in_thead := true; row_cells := [th (lit "File") []; th DESIGNATION []] |};
    {| in_thead := false;
       row_cells := [td "download" [lit "files/abc.pdf"]; td "ABC-123" []] |} ].

(** * Properties of the string functions *)

Lemma illegal_not_amp (c : N) : illegal c = true -> c <> AMP.
Proof. intros Hc ->. discriminate Hc. Qed.

Lemma existsb_amp_false (s : pystr) :
  existsb (N.eqb AMP) s = false <-> AMP ∉ s.
Proof.
  induction s as [|c s IH]; cbn [existsb].
  - split; [intros _ Hin; inversion Hin | done].
  - rewrite orb_false_iff, IH, not_elem_of_cons, N.eqb_neq. tauto.
Qed.

Lemma all_illegal_no_amp (s : pystr) :
  forallb illegal s = true -> existsb (N.eqb AMP) s = false.
Proof.
  induction s as [|c s IH]; cbn [existsb forallb]; [done|].
  intros [Hc Hs]%andb_true_iff. rewrite IH by done.
  apply illegal_not_amp in Hc. apply orb_false_iff. split; [|done].
  apply N.eqb_neq. congruence.
Qed.

Lemma lstrip_forallb (P : N -> bool) (s : pystr) :
  forallb P s = true -> forallb P (lstrip s) = true.
Proof.
  induction s as [|c s IH]; simpl; [done|].
  intros Hs. destruct (isspace c); [|done].
  apply IH. by apply andb_true_iff in Hs as [_ ?].
Qed.

Lemma rstrip_forallb (P : N -> bool) (s : pystr) :
  forallb P s = true -> forallb P (rstrip s) = true.
Proof.
  induction s as [|c s IH]; simpl; [done|].
  intros [Hc Hs]%andb_true_iff. specialize (IH Hs).
  destruct (rstrip s) as [|d r].
  - destruct (isspace c); simpl; [done | by rewrite Hc].
  - simpl in *. by rewrite Hc, IH.
Qed.

Lemma sub_illegal_all (s : pystr) :
  forallb illegal s = true -> sub_illegal s = replicate (length s) UNDERSCORE.
Proof.
  induction s as [|c s IH]; simpl; [done|].
  intros [Hc Hs]%andb_true_iff. by rewrite Hc, <- IH.
Qed.

Lemma sub_ws_underscores (b : bool) (n : nat) :
  sub_ws_from b (replicate n UNDERSCORE) = replicate n UNDERSCORE.
Proof. revert b. induction n as [|n IH]; intros b; simpl; [done|]. by rewrite IH. Qed.

Lemma lstrip_underscores (n : nat) :
  lstrip (replicate n UNDERSCORE) = replicate n UNDERSCORE.
Proof. by destruct n. Qed.

Lemma rstrip_underscores (n : nat) :
  rstrip (replicate n UNDERSCORE) = replicate n UNDERSCORE.
Proof.
  induction n as [|n IH]; simpl; [done|]. rewrite IH. by destruct n.
Qed.

Lemma or_default_nonempty (x d : pystr) : x <> [] -> or_default x d = x.
Proof. by destruct x. Qed.

Lemma replicate_nil_iff {A} (n : nat) (x : A) : replicate n x = [] <-> n = 0.
Proof. destruct n; simpl; split; (done || lia). Qed.

Lemma spaced_sub_ws (b : bool) (s : pystr) : spaced b (sub_ws_from b s) = true.
Proof.
  revert b. induction s as [|c s IH]; intros b; simpl; [done|].
  destruct (isspace c) eqn:Hc.
  - destruct b; [apply IH|]. simpl. apply IH.
  - simpl. rewrite Hc. apply IH.
Qed.

Lemma spaced_fixed (b : bool) (t : pystr) : spaced b t = true -> sub_ws_from b t = t.
Proof.
  revert b. induction t as [|c t IH]; intros b; simpl; [done|].
  destruct (isspace c).
  - intros [[Hc Hb%negb_true_iff]%andb_true_iff Ht]%andb_true_iff.
    apply N.eqb_eq in Hc. subst. by rewrite IH.
  - intros Ht. by rewrite IH.
Qed.

Lemma spaced_weaken (b : bool) (t : pystr) : spaced b t = true -> spaced false t = true.
Proof.
  destruct t as [|c t]; simpl; [done|]. destruct (isspace c); [|done].
  intros [[-> _]%andb_true_iff ->]%andb_true_iff. done.
Qed.

Lemma spaced_take (b : bool) (n : nat) (t : pystr) :
  spaced b t = true -> spaced b (take n t) = true.
Proof.
  revert b n. induction t as [|c t IH]; intros b [|n]; simpl; try done.
  destruct (isspace c).
  - intros [-> Ht]%andb_true_iff. by rewrite IH.
  - apply IH.
Qed.

Lemma spaced_lstrip (t : pystr) : spaced true t = true -> lstrip t = t.
Proof.
  destruct t as [|c t]; simpl; [done|]. destruct (isspace c); [|done].
  rewrite andb_false_r. discriminate.
Qed.

Lemma spaced_last_ws (b : bool) (t : pystr) (c : N) :
  spaced b t = true -> last t = Some c -> isspace c = true -> c = SPACE.
Proof.
  revert b. induction t as [|d t IH]; intros b; simpl; [done|].
  destruct t as [|e t].
  - intros Hs [= ->] Hc. rewrite Hc in Hs.
    apply andb_true_iff in Hs as [[Hs _]%andb_true_iff _]. by apply N.eqb_eq.
  - intros Hs Hl Hc. destruct (isspace d).
    + apply andb_true_iff in Hs as [_ Hs]. by eapply IH.
    + by eapply IH.
Qed.

Lemma rstrip_fixed (t : pystr) :
  (forall c, last t = Some c -> isspace c = false) -> rstrip t = t.
Proof.
  induction t as [|d t IH]; [done|]. intros Hl. simpl.
  destruct t as [|e t].
  - simpl. by rewrite (Hl d).
  - rewrite IH by (intros c Hc; by apply Hl). done.
Qed.

Lemma sub_illegal_fixed (t : pystr) :
  forallb (fun c => negb (illegal c)) t = true -> sub_illegal t = t.
Proof.
  induction t as [|c t IH]; simpl; [done|].
  intros [Hc%negb_true_iff Ht]%andb_true_iff. by rewrite Hc, IH.
Qed.

Lemma sub_illegal_legal (s : pystr) :
  forallb (fun c => negb (illegal c)) (sub_illegal s) = true.
Proof.
  induction s as [|c s IH]; simpl; [done|]. rewrite IH, andb_true_r.
  by destruct (illegal c) eqn:Hc; [|rewrite Hc].
Qed.

Lemma sub_ws_legal (b : bool) (s : pystr) :
  forallb (fun c => negb (illegal c)) s = true ->
  forallb (fun c => negb (illegal c)) (sub_ws_from b s) = true.
Proof.
  revert b. induction s as [|c s IH]; intros b; cbn [forallb sub_ws_from]; [done|].
  intros [Hc Hs]%andb_true_iff.
  destruct (isspace c); [destruct b|]; cbn [forallb].
  - by apply IH.
  - apply andb_true_iff. split; [reflexivity | by apply IH].
  - apply andb_true_iff. split; [done | by apply IH].
Qed.

Lemma take_forallb {A} (P : A -> bool) (n : nat) (s : list A) :
  forallb P s = true -> forallb P (take n s) = true.
Proof.
  revert n. induction s as [|c s IH]; intros [|n]; simpl; try done.
  intros [-> Hs]%andb_true_iff. by apply IH.
Qed.

(** The head of a stripped string is not white space, and stays so through
    both substitutions. *)
Lemma lstrip_head (s : pystr) (c : N) (r : pystr) :
  lstrip s = c :: r -> isspace c = false.
Proof.
  induction s as [|d s IH]; simpl; [done|].
  destruct (isspace d) eqn:Hd; [done|]. by intros [= <- _].
Qed.

Lemma rstrip_head (s : pystr) (c : N) (r : pystr) :
  rstrip s = c :: r -> exists r', s = c :: r'.
Proof.
  destruct s as [|d s]; simpl; [done|].
  destruct (rstrip s); [destruct (isspace d)|]; intros [= <- _] || done; eauto.
Qed.

Lemma strip_head (s : pystr) (c : N) (r : pystr) :
  strip s = c :: r -> isspace c = false.
Proof.
  unfold strip. intros [r' Hr]%rstrip_head. by eapply lstrip_head.
Qed.

(** * The filename sanitizers *)

Section SanitizerFacts.
Context {lib : PyLib}.

Lemma html_unescape_plain (s : pystr) : AMP ∉ s -> html_unescape s = s.
Proof. intros Hs%existsb_amp_false. unfold html_unescape. by rewrite Hs. Qed.

(** A string that the sanitizer leaves as it is: no ampersand, no illegal
    code point, single plain spaces that neither start nor end it, and at
    most 180 code points. *)
Lemma sanitize_filename_fixed (t : pystr) :
  AMP ∉ t ->
  forallb (fun c => negb (illegal c)) t = true ->
  spaced true t = true ->
  last t <> Some SPACE ->
  length t <= 180 ->
  t <> [] ->
  sanitize_filename t = t.
Proof.
  intros Hamp Hlegal Hsp Hlast Hlen Hne.
  unfold sanitize_filename, clean_filename, strip.
  rewrite html_unescape_plain, spaced_lstrip by done.
  rewrite rstrip_fixed.
  - rewrite sub_illegal_fixed by done. unfold sub_ws.
    rewrite spaced_fixed by (by eapply spaced_weaken).
    rewrite take_ge by done. by apply or_default_nonempty.
  - intros c Hc. destruct (isspace c) eqn:Hws; [|done].
    exfalso. apply Hlast. by rewrite Hc, (spaced_last_ws _ _ _ Hsp Hc Hws).
Qed.

Lemma clean_filename_spaced (s : pystr) : spaced true (clean_filename s) = true.
Proof.
  unfold clean_filename, sub_ws.
  destruct (strip (html_unescape s)) as [|c r] eqn:Hs; [done|].
  apply strip_head in Hs. unfold sub_illegal. cbn [map sub_ws_from].
  destruct (illegal c).
  - cbn [spaced]. replace (isspace UNDERSCORE) with false by done.
    apply spaced_sub_ws.
  - rewrite Hs. cbn [spaced]. rewrite Hs. apply spaced_sub_ws.
Qed.

Lemma clean_filename_legal (s : pystr) :
  forallb (fun c => negb (illegal c)) (clean_filename s) = true.
Proof. unfold clean_filename, sub_ws. apply sub_ws_legal, sub_illegal_legal. Qed.

End SanitizerFacts.

(** C2, as the code has it: an input made only of illegal characters gives
    the placeholder only when nothing is left once white space is stripped;
    otherwise [sanitize_filename] gives one underscore for each character
    that is left, up to 180, and [sanitize_for_fs], which replaces before it
    strips, one underscore for each character, up to 120. Whenever the
    cleaned text is empty the placeholder stands in. *)
Theorem sanitize_all_illegal {lib : PyLib} (s : pystr) :
  (forallb illegal s = true ->
   sanitize_filename s =
     (match strip s with
      | [] => lit "document"
      | _ => replicate (Nat.min 180 (length (strip s))) UNDERSCORE
      end)
   /\ sanitize_for_fs s =
     (match s with
      | [] => lit "query"
      | _ => replicate (Nat.min 120 (length s)) UNDERSCORE
      end))
  /\ (take 180 (clean_filename s) = [] -> sanitize_filename s = lit "document")
  /\ (take 120 (sub_ws (strip (sub_illegal s))) = [] -> sanitize_for_fs s = lit "query").
Proof.
  split; [|split].
  - intros Hs. split.
    + unfold sanitize_filename, clean_filename, html_unescape.
      rewrite all_illegal_no_amp by done.
      assert (Hst : forallb illegal (strip s) = true)
        by (by apply rstrip_forallb, lstrip_forallb).
      rewrite sub_illegal_all by done. unfold sub_ws.
      rewrite sub_ws_underscores, take_replicate.
      destruct (strip s) as [|c r]; [done|].
      apply or_default_nonempty. cbn [length]. by destruct (Nat.min_spec 180 (S (length r))) as [[? ->]|[? ->]].
    + unfold sanitize_for_fs, strip, sub_ws.
      rewrite sub_illegal_all by done.
      rewrite lstrip_underscores, rstrip_underscores, sub_ws_underscores, take_replicate.
      destruct s as [|c r]; [done|]. by apply or_default_nonempty.
  - unfold sanitize_filename. by intros ->.
  - unfold sanitize_for_fs. by intros ->.
Qed.

Lemma sanitize_all_illegal_witness :
  sanitize_filename (lib := Sample.lib) (lit "<>") = lit "__"
  /\ sanitize_for_fs (lit "<>") = lit "__".
Proof.
  apply (sanitize_all_illegal (lib := Sample.lib) (lit "<>")). reflexivity.
Defined.

(** C2, as stated, fails: colon, question mark and asterisk are illegal and
    no placeholder comes out, but three underscores. *)
Lemma sanitize_all_illegal_counterexample :
  forallb illegal (lit ":?*") = true
  /\ sanitize_filename (lib := Sample.lib) (lit ":?*") = lit "___"
  /\ sanitize_for_fs (lit ":?*") = lit "___".
Proof. repeat split. Qed.

(** C9, as the code has it: the sanitizer returns its own output unchanged
    when that output holds no ampersand (no character reference is decoded
    a second time) and does not end in a space (the cut at 180 did not
    fall right after one). *)
Theorem sanitize_filename_idempotent_when {lib : PyLib} (s : pystr) :
  AMP ∉ sanitize_filename s ->
  last (sanitize_filename s) <> Some SPACE ->
  sanitize_filename (sanitize_filename s) = sanitize_filename s.
Proof.
  unfold sanitize_filename at 1 2 4 5.
  destruct (take 180 (clean_filename s)) as [|c r] eqn:Ht; cbn [or_default].
  - intros _ _.
    apply sanitize_filename_fixed;
      [ by apply existsb_amp_false | reflexivity | reflexivity | discriminate
      | cbn; lia | discriminate ].
  - rewrite <- Ht. intros Hamp Hlast.
    apply sanitize_filename_fixed; try done.
    + apply take_forallb, clean_filename_legal.
    + apply spaced_take, clean_filename_spaced.
    + rewrite length_take. lia.
    + by rewrite Ht.
Qed.

Lemma sanitize_filename_idempotent_witness :
  sanitize_filename (lib := Sample.lib) (sanitize_filename (lib := Sample.lib) (lit " a  b? "))
  = sanitize_filename (lib := Sample.lib) (lit " a  b? ").
Proof.
  apply (sanitize_filename_idempotent_when (lib := Sample.lib) (lit " a  b? ")).
  - intros Hin. by apply existsb_amp_false in Hin.
  - discriminate.
Defined.

(** C9, as stated, fails twice over: a reference to a reference is decoded
    once more at each pass, and a 181-character name whose 180th character
    is a space loses that space at the second pass. *)
Lemma sanitize_filename_idempotent_counterexample :
  (sanitize_filename (lib := Sample.lib) (lit "&amp;lt;") = lit "&lt;"
   /\ sanitize_filename (lib := Sample.lib) (lit "&lt;") = lit "_")
  /\ (sanitize_filename (lib := Sample.lib) (replicate 179 97%N ++ lit " b")
        = replicate 179 97%N ++ lit " "
      /\ sanitize_filename (lib := Sample.lib) (replicate 179 97%N ++ lit " ")
        = replicate 179 97%N).
Proof. repeat split; vm_compute; reflexivity. Qed.

(** * The extension of a downloaded file *)

(** C1, as the code has it: a URL that looks like a PDF gives [.pdf]
    whatever the content type says; for any other URL the content type
    decides (exactly [application/pdf] gives [.pdf], else the type table),
    the extension of the URL path is used when the content type is missing,
    empty or gives nothing, and [.bin] when the path has none. *)
Theorem guess_ext_decision {lib : PyLib} (content_type : option pystr) (url : pystr) :
  (is_pdf_href url = true -> guess_ext content_type url = lit ".pdf")
  /\ (is_pdf_href url = false ->
      forall ct e, content_type = Some ct -> ct <> [] ->
      content_type_ext ct = Some e -> guess_ext content_type url = e)
  /\ (is_pdf_href url = false ->
      content_type = None \/ content_type = Some []
      \/ (exists ct, content_type = Some ct /\ content_type_ext ct = None) ->
      guess_ext content_type url = url_ext url)
  /\ (forall ct, str_lower (strip (before_semicolon ct)) = lit "application/pdf" ->
      content_type_ext ct = Some (lit ".pdf"))
  /\ (forall ct, str_lower (strip (before_semicolon ct)) <> lit "application/pdf" ->
      content_type_ext ct =
        match str_lower (default [] (guess_extension
                                       (str_lower (strip (before_semicolon ct))))) with
        | [] => None
        | e => Some e
        end)
  /\ (str_lower (splitext (url_path (urlparse url))).2 = [] -> url_ext url = lit ".bin")
  /\ (str_lower (splitext (url_path (urlparse url))).2 <> [] ->
      url_ext url = str_lower (splitext (url_path (urlparse url))).2).
Proof.
  unfold guess_ext. repeat split.
  - by intros ->.
  - intros -> ct e -> Hne Hct. destruct ct as [|c ct]; [done|]. by rewrite Hct.
  - intros -> [-> | [-> | (ct & -> & Hct)]]; try done.
    destruct ct as [|c ct]; [done|]. by rewrite Hct.
  - intros ct Hct. unfold content_type_ext.
    destruct (decide _) as [_|Hne]; [done | by destruct Hne].
  - intros ct Hct. unfold content_type_ext.
    destruct (decide _) as [Heq|_]; [by destruct Hct|].
    cbv zeta. by destruct (str_lower (default _ _)).
  - unfold url_ext. by intros ->.
  - unfold url_ext. intros Hne. by apply or_default_nonempty.
Qed.

Lemma guess_ext_decision_witness :
  guess_ext (lib := Sample.lib) (Some (lit "text/html; charset=utf-8")) (lit "http://host/doc")
  = lit ".html".
Proof.
  apply (proj1 (proj2 (guess_ext_decision (lib := Sample.lib)
                         (Some (lit "text/html; charset=utf-8")) (lit "http://host/doc"))))
    with (ct := lit "text/html; charset=utf-8");
    [reflexivity | reflexivity | discriminate | reflexivity].
Defined.

(** C1, as stated, fails: the content type [text/html] gives [.html], yet
    the URL ends in [.pdf] and decides. *)
Lemma guess_ext_counterexample :
  content_type_ext (lib := Sample.lib) (lit "text/html") = Some (lit ".html")
  /\ guess_ext (lib := Sample.lib) (Some (lit "text/html")) (lit "http://host/doc.pdf")
     = lit ".pdf".
Proof. split; reflexivity. Qed.

(** * Unique names and downloads *)

Lemma lit_inj (s t : string) : lit s = lit t -> s = t.
Proof.
  revert t. induction s as [|a s IH]; intros [|b t]; simpl; try done.
  intros [= Hab Hst]. f_equal; [|by apply IH].
  rewrite <- (ascii_N_embedding a), <- (ascii_N_embedding b). by rewrite Hab.
Qed.

Lemma decimal_inj (i j : N) : decimal i = decimal j -> i = j.
Proof. intros Hd%lit_inj. by apply (inj pretty). Qed.

Lemma path_join_inj (a b b' : pystr) :
  startswith [SLASH] b = startswith [SLASH] b' ->
  path_join a b = path_join a b' -> b = b'.
Proof.
  unfold path_join. intros <-. destruct (startswith [SLASH] b); [done|].
  destruct (_ || _).
  - by intros ?%app_inv_head.
  - intros ?%app_inv_head. congruence.
Qed.

Lemma candidate_inj (folder stem ext : pystr) (i j : N) :
  candidate folder stem ext i = candidate folder stem ext j -> i = j.
Proof.
  unfold candidate. intros Hc%path_join_inj.
  - apply app_inv_head, app_inv_head in Hc.
    by apply app_inv_tail, decimal_inj in Hc.
  - by destruct stem.
Qed.

Section UniquePath.
Variables (folder stem ext : pystr).

Lemma unique_path_loop_ext (fuel : nat) (fs fs' : FS) (i : N) :
  (forall j, (i <= j)%N ->
     path_exists fs (candidate folder stem ext j)
     = path_exists fs' (candidate folder stem ext j)) ->
  unique_path_loop fuel fs folder stem ext i
  = unique_path_loop fuel fs' folder stem ext i.
Proof.
  revert i. induction fuel as [|fuel IH]; intros i Hagree; simpl; [done|].
  rewrite <- Hagree by lia.
  destruct (path_exists fs _); simpl; [|done].
  apply IH. intros j Hj. apply Hagree. lia.
Qed.

(** The probing loop stops: a file system with fewer entries than rounds
    cannot hold every candidate. *)
Lemma unique_path_loop_total (fuel : nat) (fs : FS) (i : N) :
  size fs < fuel -> is_Some (unique_path_loop fuel fs folder stem ext i).
Proof.
  revert fs i. induction fuel as [|fuel IH]; intros fs i Hsize; [lia|].
  simpl. destruct (path_exists fs _) eqn:Hex; simpl; [|eauto].
  unfold path_exists in Hex.
  destruct (fs !! candidate folder stem ext i) as [n|] eqn:Hlook; [|done].
  rewrite (unique_path_loop_ext fuel fs (delete (candidate folder stem ext i) fs)).
  - apply IH. rewrite map_size_delete_Some by eauto.
    assert (size fs <> 0); [|lia].
    intros ->%map_size_empty_inv. by rewrite lookup_empty in Hlook.
  - intros j Hj. unfold path_exists. rewrite lookup_delete_ne; [done|].
    intros ?%candidate_inj. lia.
Qed.

(** What the loop returns is the first free candidate from [i] on. *)
Lemma unique_path_loop_first_free (fuel : nat) (fs : FS) (i : N) (p : pystr) :
  unique_path_loop fuel fs folder stem ext i = Some p ->
  exists j, (i <= j)%N /\ p = candidate folder stem ext j
    /\ path_exists fs p = false
    /\ forall k, (i <= k < j)%N -> path_exists fs (candidate folder stem ext k) = true.
Proof.
  revert i. induction fuel as [|fuel IH]; intros i; simpl; [done|].
  destruct (path_exists fs (candidate folder stem ext i)) eqn:Hex; simpl.
  - intros (j & Hj & -> & Hfree & Hbusy)%IH. exists j.
    split; [lia|]. split; [done|]. split; [done|].
    intros k Hk. destruct (N.eq_dec k i) as [->|]; [done|]. apply Hbusy. lia.
  - intros [= <-]. exists i.
    split; [lia|]. split; [done|]. split; [done|]. intros k Hk. lia.
Qed.

(** X1: [unique_path] returns, and what it returns is a name that does not
    exist: the plain [stem.ext] when that is free, and else the first free
    one of [stem (1).ext], [stem (2).ext], ... in increasing order. *)
Theorem unique_path_spec (fs : FS) :
  exists p, unique_path (S (size fs)) fs folder stem ext = Some p
    /\ path_exists fs p = false
    /\ (path_exists fs (path_join folder (stem ++ ext)) = false ->
        p = path_join folder (stem ++ ext))
    /\ (path_exists fs (path_join folder (stem ++ ext)) = true ->
        exists j, (1 <= j)%N /\ p = candidate folder stem ext j
          /\ forall k, (1 <= k < j)%N ->
               path_exists fs (candidate folder stem ext k) = true).
Proof.
  unfold unique_path.
  destruct (path_exists fs (path_join folder (stem ++ ext))) eqn:Hex; simpl.
  - destruct (unique_path_loop_total (S (size fs)) fs 1) as [p Hp]; [lia|].
    exists p. split; [done|].
    destruct (unique_path_loop_first_free _ _ _ _ Hp) as (j & Hj & -> & Hfree & Hbusy).
    split; [done|]. split; [done|]. intros _. by exists j.
  - eexists. split; [done|]. split; [done|]. split; done.
Qed.

End UniquePath.

(** C3 fails on the code: the free name is probed with the extension
    [.pdf], and [download] then swaps the extension for the one the response
    gives and writes there without looking. Two documents named [a] that are
    served as HTML both land in [d/a.html]: the second download replaces the
    bytes of the first, and no [a (1)] is made. *)
Theorem download_overwrites_after_extension_change :
  let fs0 : FS := {[ lit "d" := Dir ]} in
  let st1 := fetch_one (lib := Sample.lib) html_server (lit "d") (0, 0, fs0)
               (lit "a", lit "http://host/one") in
  let st2 := fetch_one (lib := Sample.lib) html_server (lit "d") st1
               (lit "a", lit "http://host/two") in
  unique_path (S (size st1.2)) st1.2 (lit "d") (lit "a") (lit ".pdf")
    = Some (lit "d/a.pdf")
  /\ st1.2 !! lit "d/a.html" = Some (File [1; 1; 1]%N)
  /\ st2.1 = (2, 0)
  /\ st2.2 !! lit "d/a.html" = Some (File [2; 2]%N)
  /\ st2.2 !! lit "d/a (1).html" = None
  /\ st2.2 !! lit "d/a (1).pdf" = None
  /\ size st2.2 = 2.
Proof. vm_compute. repeat split. Qed.

(** * De-duplication of rectangles *)

(** Rounding moves a number by at most one half. *)
Lemma round_half_even_near (n : Z) (d : positive) :
  (Z.abs (2 * n - 2 * round_half_even (n # d) * Zpos d) <= Zpos d)%Z.
Proof.
  unfold round_half_even. cbn [Qnum Qden].
  pose proof (Z.div_mod n (Zpos d) ltac:(lia)) as Hdm.
  pose proof (Z.mod_pos_bound n (Zpos d) ltac:(lia)) as Hr.
  set (f := (n / Zpos d)%Z) in *. set (r := (n mod Zpos d)%Z) in *.
  destruct (Z.compare_spec (2 * r) (Zpos d)); [destruct (Z.even f)| |]; nia.
Qed.

Lemma round2_far (a b : Q) : far a b -> round2 a <> round2 b.
Proof.
  unfold far, round2. destruct a as [na da], b as [nb db]. intros Hfar Heq.
  unfold Qmult in Heq. cbn [Qnum Qden] in Heq.
  pose proof (round_half_even_near (na * 100) (da * 1)) as Ha.
  pose proof (round_half_even_near (nb * 100) (db * 1)) as Hb.
  rewrite Heq in Ha.
  set (k := round_half_even (nb * 100 # db * 1)) in *. clearbody k. clear Heq.
  unfold Qlt, Qabs, Qminus, Qplus, Qopp in Hfar. cbn [Qnum Qden] in Hfar.
  rewrite !Pos2Z.inj_mul in *. nia.
Qed.

Lemma rect_key_far (r1 r2 : Rect) : rect_far r1 r2 -> rect_key r1 <> rect_key r2.
Proof.
  unfold rect_key. intros [H|[H|[H|H]]] [= ? ? ? ?]; by eapply round2_far.
Qed.

Lemma dedup_from_sublist (seen : gset RectKey) (rects : list Rect) :
  dedup_from seen rects `sublist_of` rects.
Proof.
  revert seen. induction rects as [|r rects IH]; intros seen; simpl; [done|].
  destruct (decide _); [by apply sublist_cons | by apply sublist_skip].
Qed.

Lemma dedup_from_fresh (seen : gset RectKey) (rects : list Rect) (r : Rect) :
  r ∈ dedup_from seen rects -> rect_key r ∉ seen.
Proof.
  revert seen. induction rects as [|r' rects IH]; intros seen; simpl.
  - by intros ?%elem_of_nil.
  - destruct (decide _) as [|Hnew]; [apply IH|].
    intros [->|Hin%IH]%elem_of_cons; [done|].
    intros Hs. by apply Hin, elem_of_union_r.
Qed.

Lemma dedup_from_nodup (seen : gset RectKey) (rects : list Rect) :
  NoDup (rect_key <$> (dedup_from seen rects)).
Proof.
  revert seen. induction rects as [|r rects IH]; intros seen; simpl.
  - constructor.
  - destruct (decide _) as [|Hnew]; [apply IH|]. simpl. constructor; [|apply IH].
    intros (r' & Hk & Hin%dedup_from_fresh)%list_elem_of_fmap.
    apply Hin, elem_of_union_l, elem_of_singleton. by symmetry.
Qed.

Lemma dedup_from_covers (seen : gset RectKey) (rects : list Rect) (r : Rect) :
  r ∈ rects ->
  rect_key r ∈ seen \/ rect_key r ∈ rect_key <$> (dedup_from seen rects).
Proof.
  revert seen. induction rects as [|r' rects IH]; intros seen; simpl.
  - by intros ?%elem_of_nil.
  - intros [->|Hin]%elem_of_cons.
    + destruct (decide _); [by left | right; simpl; left].
    + destruct (decide _) as [|Hnew]; [by apply IH|].
      destruct (IH ({[rect_key r']} ∪ seen) Hin) as [Hs|Ho].
      * apply elem_of_union in Hs as [->%elem_of_singleton|]; [|by left].
        right. simpl. left.
      * right. simpl. by right.
Qed.

(** C4, as the code has it: the key of a rectangle is the tuple of its
    coordinates rounded to two decimals. The result keeps the first
    rectangle of every key, in order: it is a sublist of the input, no key
    occurs twice in it and every input key occurs in it. Hence two
    rectangles collapse exactly when their rounded tuples are equal; two
    rectangles with a coordinate more than 0.01 apart have different keys
    and both count. *)
Theorem dedup_rects_by_rounded_key (rects : list Rect) :
  _dedup_rects rects `sublist_of` rects
  /\ NoDup (rect_key <$> (_dedup_rects rects))
  /\ (forall r, r ∈ rects -> rect_key r ∈ rect_key <$> (_dedup_rects rects))
  /\ (forall r1 r2, rect_key r1 = rect_key r2 -> _dedup_rects [r1; r2] = [r1])
  /\ (forall r1 r2, rect_key r1 <> rect_key r2 -> _dedup_rects [r1; r2] = [r1; r2])
  /\ (forall r1 r2, rect_far r1 r2 -> rect_key r1 <> rect_key r2).
Proof.
  unfold _dedup_rects. split; [apply dedup_from_sublist|].
  split; [apply dedup_from_nodup|]. split; [|split; [|split]].
  - intros r Hr. destruct (dedup_from_covers ∅ rects r Hr) as [Hs|Ho]; [|done].
    by apply not_elem_of_empty in Hs.
  - intros r1 r2 Hk. simpl. rewrite decide_False by apply not_elem_of_empty.
    rewrite decide_True; [done|].
    apply elem_of_union_l, elem_of_singleton. by symmetry.
  - intros r1 r2 Hk. simpl. rewrite decide_False by apply not_elem_of_empty.
    rewrite decide_False; [done|].
    intros [Hs%elem_of_singleton|Hs%not_elem_of_empty]%elem_of_union; [|done].
    by apply Hk.
  - apply rect_key_far.
Qed.

Lemma dedup_rects_witness : _dedup_rects [rect_a; rect_b] = [rect_a].
Proof.
  apply (proj1 (proj2 (proj2 (proj2 (dedup_rects_by_rounded_key []))))).
  reflexivity.
Defined.

(** C4, as stated, fails: the left edges of [rect_b] and [rect_c] are
    1/256 apart, less than 0.01, and all other coordinates are equal, yet
    they round to 0.00 and 0.01 and both rectangles count. *)
Lemma dedup_rects_counterexample :
  (Qabs (x0 rect_b - x0 rect_c) < 1 # 100)%Q
  /\ y0 rect_b = y0 rect_c /\ x1 rect_b = x1 rect_c /\ y1 rect_b = y1 rect_c
  /\ _dedup_rects [rect_b; rect_c] = [rect_b; rect_c].
Proof. repeat split. Qed.

(** * The highlighter *)

Lemma dedup_rects_nonempty (r : Rect) (rects : list Rect) :
  exists rest, _dedup_rects (r :: rects) = r :: rest.
Proof.
  unfold _dedup_rects. simpl. rewrite decide_False by apply not_elem_of_empty.
  eauto.
Qed.

Lemma annotate_hits (page : Page) (rects : list Rect) (st : N * list (N * Rect)) :
  (foldl (annotate page) st rects).1 = (st.1 + N.of_nat (length rects))%N.
Proof.
  revert st. induction rects as [|r rects IH]; intros st; simpl.
  - lia.
  - rewrite IH. unfold annotate. simpl. lia.
Qed.

Section HighlighterFacts.
Context {lib : PyLib}.

Lemma scan_pages_agree (pages : list Page) (query : pystr)
    (hits : N) (pset : gset N) (annots : list (N * Rect)) :
  pages_agree hits pset ->
  pages_agree (scan_pages pages query hits pset annots).1.1
              (scan_pages pages query hits pset annots).1.2.
Proof.
  revert hits pset annots.
  induction pages as [|page pages IH]; intros hits pset annots Hagree;
    cbn [scan_pages]; [done|].
  destruct (_search_rects page query) as [|r rects]; [by apply IH|].
  pose proof (annotate_hits page (r :: rects) (hits, annots)) as Hhits.
  destruct (foldl (annotate page) (hits, annots) (r :: rects)) as [hits' annots'].
  cbn [fst length] in Hhits. apply IH. destruct Hagree as [Hne Hge]. split.
  - split; [lia|]. intros _ Hempty.
    assert (Hin : (number page + 1)%N ∈ ({[(number page + 1)%N]} ∪ pset))
      by (by apply elem_of_union_l, elem_of_singleton).
    rewrite Hempty in Hin. by apply not_elem_of_empty in Hin.
  - intros p [->%elem_of_singleton|Hp]%elem_of_union; [lia | by apply Hge].
Qed.

Lemma scan_pages_start (pages : list Page) (query : pystr) :
  pages_agree (scan_pages pages query 0 ∅ []).1.1 (scan_pages pages query 0 ∅ []).1.2.
Proof. apply scan_pages_agree. split; [split; [done | lia]|]. intros p Hp. by apply not_elem_of_empty in Hp. Qed.

End HighlighterFacts.

(** C10: in the triple that [highlight_file] returns, an output path stands
    exactly when there are hits, the set of pages is non-empty exactly when
    there are hits, and every page number is at least 1. *)
Theorem highlight_file_result {lib : PyLib} (engine : Engine)
    (pdf_path query out_dir : pystr) (fs fs' : FS)
    (hits : N) (pages : gset N) (out_path : option pystr) :
  highlight_file engine pdf_path query out_dir fs = (Some (hits, pages, out_path), fs') ->
  (out_path <> None <-> (0 < hits)%N)
  /\ (pages <> ∅ <-> (0 < hits)%N)
  /\ forall p, p ∈ pages -> (1 <= p)%N.
Proof.
  unfold highlight_file.
  destruct (fs !! pdf_path) as [[bytes|]|]; try done.
  destruct (engine bytes) as [doc|]; [|done].
  pose proof (scan_pages_start (doc_pages doc) query) as [Hne Hge].
  destruct (scan_pages (doc_pages doc) query 0 ∅ []) as [[h ps] annots].
  simpl in Hne, Hge. destruct (N.ltb_spec 0 h) as [Hpos|Hzero].
  - destruct (mkdir_p out_dir fs) as [fs1|]; [|done].
    destruct (fs1 !! _) as [[?|]|]; intros [= <- <- <- <-] || done; done.
  - intros [= <- <- <- <-]. split; [|done]. split; [done | lia].
Qed.

(** C5: when [highlight_file] returns with no hit, the file system is as it
    was (no file, no directory), no output path is returned, and the loop
    of [main] records nothing for the document. *)
Theorem zero_hits_leave_no_entry {lib : PyLib} (engine : Engine)
    (pdf_path query out_dir : pystr) (fs fs' : FS)
    (pages : gset N) (out_path : option pystr) :
  highlight_file engine pdf_path query out_dir fs = (Some (0%N, pages, out_path), fs') ->
  fs' = fs /\ out_path = None /\ pages = ∅
  /\ forall matched total,
       scan_one engine query out_dir (matched, total, fs) pdf_path = (matched, total, fs).
Proof.
  intros Hrun.
  assert (Hfs : fs' = fs /\ out_path = None /\ pages = ∅).
  { revert Hrun. unfold highlight_file.
    destruct (fs !! pdf_path) as [[bytes|]|]; try done.
    destruct (engine bytes) as [doc|]; [|done].
    pose proof (scan_pages_start (doc_pages doc) query) as [Hne _].
    destruct (scan_pages (doc_pages doc) query 0 ∅ []) as [[h ps] annots].
    cbn [fst snd] in Hne. destruct (N.ltb_spec 0 h) as [Hpos|Hzero].
    - destruct (mkdir_p out_dir fs) as [fs1|]; [|done].
      destruct (fs1 !! _) as [[?|]|]; intros [= Hh _ _ _] || done; lia.
    - intros [= Hh <- <- <-]. split; [done|]. split; [done|].
      destruct (decide (ps = ∅)) as [|Hps]; [done|]. apply Hne in Hps. lia. }
  destruct Hfs as (-> & -> & ->). split; [done|]. split; [done|]. split; [done|].
  intros matched total. unfold scan_one. by rewrite Hrun.
Qed.

Lemma highlight_file_result_witness :
  (Some (lit "out/run/a.pdf") <> None <-> (0 < 1)%N)
  /\ (({[2%N]} : gset N) <> ∅ <-> (0 < 1)%N)
  /\ forall p, p ∈ ({[2%N]} : gset N) -> (1 <= p)%N.
Proof.
  apply (highlight_file_result (lib := Sample.lib) sample_engine
           (lit "docs/a.pdf") (lit "torque") (lit "out/run") corpus
           (highlight_file (lib := Sample.lib) sample_engine
              (lit "docs/a.pdf") (lit "torque") (lit "out/run") corpus).2).
  vm_compute. reflexivity.
Defined.

Lemma zero_hits_witness :
  corpus = corpus /\ (None : option pystr) = None /\ (∅ : gset N) = ∅
  /\ forall matched total,
       scan_one (lib := Sample.lib) sample_engine (lit "torque") (lit "out/run")
         (matched, total, corpus) (lit "docs/b.pdf") = (matched, total, corpus).
Proof.
  apply (zero_hits_leave_no_entry (lib := Sample.lib) sample_engine
           (lit "docs/b.pdf") (lit "torque") (lit "out/run") corpus corpus ∅ None).
  vm_compute. reflexivity.
Defined.

(** * The table and column classifier *)

Lemma marker_index_first (headers : list pystr) (k i : nat) (h : pystr) :
  headers !! i = Some h ->
  contains MARKER h = true ->
  (forall j h', j < i -> headers !! j = Some h' -> contains MARKER h' = false) ->
  marker_index headers k = Some (k + i).
Proof.
  revert k i. induction headers as [|h0 headers IH]; intros k i Hi Hm Hbefore; [done|].
  destruct i as [|i]; simpl in *.
  - injection Hi as ->. rewrite Hm. f_equal. lia.
  - rewrite (Hbefore 0 h0) by (done || lia).
    rewrite (IH (S k) i) by (try done; intros j h' Hj; apply (Hbefore (S j)); lia).
    f_equal. lia.
Qed.

(** [argmax_from] after the values [pre] have been read: the index it
    returns holds a largest value, and every earlier value is smaller. *)
Lemma argmax_from_spec (l pre : list nat) (best v : nat) :
  pre !! best = Some v ->
  (forall j w, pre !! j = Some w -> w <= v /\ (j < best -> w < v)) ->
  exists v', (pre ++ l) !! argmax_from l (length pre) best v = Some v'
    /\ forall j w, (pre ++ l) !! j = Some w ->
         w <= v' /\ (j < argmax_from l (length pre) best v -> w < v').
Proof.
  revert pre best v. induction l as [|w l IH]; intros pre best v Hbest Hmax; simpl.
  - rewrite app_nil_r. eauto.
  - assert (Hlt : best < length pre) by (by eapply lookup_lt_Some).
    replace (pre ++ w :: l) with ((pre ++ [w]) ++ l) by (by rewrite <- app_assoc).
    replace (S (length pre)) with (length (pre ++ [w])) by (rewrite length_app; simpl; lia).
    destruct (Nat.ltb_spec v w) as [Hvw|Hvw]; apply IH.
    + by rewrite lookup_app_r, Nat.sub_diag.
    + intros j w' Hj. destruct (decide (j < length pre)) as [Hjl|Hjl].
      * rewrite lookup_app_l in Hj by done. apply Hmax in Hj. lia.
      * rewrite lookup_app_r in Hj by lia.
        destruct (j - length pre) as [|[|?]] eqn:Hd; simpl in Hj; try done.
        injection Hj as <-. lia.
    + by rewrite lookup_app_l.
    + intros j w' Hj. destruct (decide (j < length pre)) as [Hjl|Hjl].
      * rewrite lookup_app_l in Hj by done. by apply Hmax.
      * rewrite lookup_app_r in Hj by lia.
        destruct (j - length pre) as [|[|?]] eqn:Hd; simpl in Hj; try done.
        injection Hj as <-. lia.
Qed.

(** [max(range(len(l)), key=...)] returns the first index of the largest
    value. *)
Lemma argmax_spec (l : list nat) (i : nat) :
  argmax l = Some i ->
  exists v, l !! i = Some v
    /\ forall j w, l !! j = Some w -> w <= v /\ (j < i -> w < v).
Proof.
  destruct l as [|v l]; [done|]. intros [= <-].
  apply (argmax_from_spec l [v] 0 v); [done|].
  intros [|j] w; simpl; [|done]. intros [= <-]. lia.
Qed.

Section ClassifierFacts.
Context {lib : PyLib}.

Lemma find_target_table_skip (pre rest : list Table) :
  Forall (fun t => detect_designation_col t = None) pre ->
  find_target_table (pre ++ rest) = find_target_table rest.
Proof.
  induction 1 as [|t pre Ht _ IH]; simpl; [done|]. by rewrite Ht.
Qed.

End ClassifierFacts.

(** X2: the link heuristic of [detect_designation_col]. With no marked
    header, the classifier counts for every column the rows after the first
    that have a link there; it yields no column when all counts are zero;
    a column it returns has the largest count, which is positive, and every
    column before it has a smaller one; and a column whose count is larger
    than that of every other column is the one returned. *)
Theorem detect_by_link_counts {lib : PyLib} (table : Table) :
  marker_index (headers_of (find_header_row table)) 0 = None ->
  (existsb (fun c => 0 <? c) (link_counts table) = false ->
   detect_designation_col table = None)
  /\ (forall i, detect_designation_col table = Some i ->
      exists v, link_counts table !! i = Some v /\ 0 < v
        /\ forall j w, link_counts table !! j = Some w -> w <= v /\ (j < i -> w < v))
  /\ (forall i v, link_counts table !! i = Some v -> 0 < v ->
      (forall j w, j <> i -> link_counts table !! j = Some w -> w < v) ->
      detect_designation_col table = Some i).
Proof.
  intros Hnone. unfold detect_designation_col. rewrite Hnone.
  split; [by intros -> |]. split.
  - intros i. destruct (existsb _ _) eqn:Hany; [|done].
    intros (v & Hv & Hmax)%argmax_spec. exists v. split; [done|]. split; [|done].
    apply existsb_exists in Hany as (w & Hw & Hpos%Nat.ltb_lt).
    apply list_elem_of_In, list_elem_of_lookup in Hw as [j Hj].
    apply Hmax in Hj. lia.
  - intros i v Hi Hpos Hstrict.
    assert (Hany : existsb (fun c => 0 <? c) (link_counts table) = true).
    { apply existsb_exists. exists v. split; [|by apply Nat.ltb_lt].
      apply list_elem_of_In, list_elem_of_lookup. eauto. }
    rewrite Hany. destruct (argmax (link_counts table)) as [i'|] eqn:Harg.
    + apply argmax_spec in Harg as (v' & Hv' & Hmax).
      destruct (decide (i' = i)) as [->|Hne]; [done|].
      apply (Hstrict _ _ Hne) in Hv' as Hlt. apply Hmax in Hi. lia.
    + by destruct (link_counts table).
Qed.

Lemma detect_by_link_counts_witness :
  detect_designation_col (lib := Sample.lib) headed_second_table = Some 1.
Proof.
  apply (proj2 (proj2 (detect_by_link_counts (lib := Sample.lib) headed_second_table
                         eq_refl)) 1 1).
  - reflexivity.
  - lia.
  - intros [|[|j]] w Hne Hw; vm_compute in Hw; [injection Hw as <-; lia | done | done].
Defined.

(** C7, as the code has it: the header cells are those of one row, the one
    [find_header_row] picks (the first row of the [thead], else the first
    row with a [th], else the first row with cells). When a cell of that
    row has the marker in its normalized text and no cell to its left has,
    the classifier returns the index of that cell, whatever the links of
    the table are, and the table is chosen wherever it stands on the page,
    provided no table before it yields a column. *)
Theorem header_marker_decides {lib : PyLib} (pre post : list Table) (t : Table)
    (hr : Row) (i : nat) (c : Cell) :
  Forall (fun t' => detect_designation_col t' = None) pre ->
  find_header_row t = Some hr ->
  row_cells hr !! i = Some c ->
  contains MARKER (normalize_text (cell_text c)) = true ->
  (forall j c', j < i -> row_cells hr !! j = Some c' ->
     contains MARKER (normalize_text (cell_text c')) = false) ->
  detect_designation_col t = Some i
  /\ find_target_table (pre ++ t :: post) = Some (t, i).
Proof.
  intros Hpre Hhr Hc Hm Hbefore.
  assert (Hdetect : detect_designation_col t = Some i).
  { unfold detect_designation_col. rewrite Hhr. unfold headers_of.
    rewrite (marker_index_first _ 0 i (normalize_text (cell_text c))); try done.
    - by rewrite list_lookup_fmap, Hc.
    - intros j h' Hj. rewrite list_lookup_fmap.
      destruct (row_cells hr !! j) as [c'|] eqn:Hc'; [|done].
      intros [= <-]. by eapply Hbefore. }
  split; [done|]. rewrite find_target_table_skip by done. simpl. by rewrite Hdetect.
Qed.

Lemma header_marker_witness :
  detect_designation_col (lib := Sample.lib) catalog_table = Some 1
  /\ find_target_table (lib := Sample.lib) ([menu_table] ++ catalog_table :: [menu_table])
     = Some (catalog_table, 1).
Proof.
  apply (header_marker_decides (lib := Sample.lib) [menu_table] [menu_table] catalog_table
           {| in_thead := false;
              row_cells := [th NUMERO []; th DESIGNATION []; th (lit "Note") []] |}
           1 (th DESIGNATION [])).
  - by repeat constructor.
  - reflexivity.
  - reflexivity.
  - reflexivity.
  - intros [|[|j]] c' Hj; [intros [= <-]; reflexivity | lia | lia].
Defined.

(** C7, as stated, fails twice over. In [twice_marked_table] the header
    cell of column 2 has the marker, and the classifier returns column 0,
    the leftmost marked cell. In [titled_table] the marked header cell
    stands in the second row of the [thead], at column 1: the classifier
    reads the first row of the [thead] only, finds no marker there, falls
    back on the links and returns column 0. *)
Lemma header_marker_counterexample :
  (find_header_row twice_marked_table
     = Some {| in_thead := false;
               row_cells := [th DESIGNATION []; th (lit "Note") [];
                             th DESIGNATION_SHORT []] |}
   /\ contains MARKER (normalize_text (lib := Sample.lib) DESIGNATION_SHORT) = true
   /\ detect_designation_col (lib := Sample.lib) twice_marked_table = Some 0)
  /\ (titled_table !! 1
       = Some {| in_thead := true;
                 row_cells := [th (lit "File") []; th DESIGNATION []] |}
      /\ contains MARKER (normalize_text (lib := Sample.lib) DESIGNATION) = true
      /\ find_header_row titled_table
         = Some {| in_thead := true; row_cells := [th (lit "Catalogue") []] |}
      /\ detect_designation_col (lib := Sample.lib) titled_table = Some 0).
Proof. vm_compute. repeat split. Qed.

(** C6 fails on the code: the counting loop passes over the first row of
    the table, not over the header row. Here the header row is the second
    row: the only data row has its link in column 0, the code counts the
    link of the header row instead and answers column 1. *)
Theorem link_count_skips_first_row_not_header :
  find_header_row headed_second_table
    = Some {| in_thead := false;
              row_cells := [th (lit "Name") []; th (lit "Group") [lit "groups.php"]] |}
  /\ marker_index (headers_of (lib := Sample.lib) (find_header_row headed_second_table)) 0
     = None
  /\ map (count_links_non_header headed_second_table)
         (seq 0 (max_cols headed_second_table)) = [1; 0]
  /\ link_counts headed_second_table = [0; 1]
  /\ detect_designation_col (lib := Sample.lib) headed_second_table = Some 1.
Proof. vm_compute. repeat split. Qed.

(** * Exit codes *)

(** C8, as the code has it: each program ends with 0 on success and gives
    each of its own fatal conditions a code of its own. The downloader ends
    with 1 exactly when the page could not be fetched, 2 exactly when no
    table yields a column, 3 exactly when the table yields no row; the
    search ends with 2 exactly when the documents directory is missing and
    3 exactly when it holds no PDF (and 1 exactly when the query is empty).
    The numbers are shared between the two programs. *)
Theorem exit_codes {lib : PyLib} (page : option (list Table)) (net : Net)
    (target_dir : pystr) (fs : FS) (engine : Engine) (arg_query : option pystr)
    (typed docs_dir out_root stamp : pystr) (no_open : bool) :
  let kms := (main_kms page net target_dir fs).1 in
  let search :=
    run_outcome (main_search engine arg_query typed docs_dir out_root stamp no_open fs) in
  let query := effective_query arg_query typed in
  (kms = Exit 1 <-> page = None)
  /\ (kms = Exit 2 <-> exists soup, page = Some soup /\ find_target_table soup = None)
  /\ (kms = Exit 3 <->
      exists soup table idx, page = Some soup
        /\ find_target_table soup = Some (table, idx) /\ extract_rows table idx = [])
  /\ (kms = Exit 0 <->
      exists soup table idx, page = Some soup
        /\ find_target_table soup = Some (table, idx) /\ extract_rows table idx <> []
        /\ is_Some (mkdir_p target_dir fs))
  /\ (search = Exit 1 <-> query = [])
  /\ (search = Exit 2 <-> query <> [] /\ path_exists fs docs_dir = false)
  /\ (search = Exit 3 <->
      query <> [] /\ path_exists fs docs_dir = true /\ iter_pdfs docs_dir fs = [])
  /\ (search = Exit 0 <->
      query <> [] /\ path_exists fs docs_dir = true /\ iter_pdfs docs_dir fs <> []
      /\ is_Some (mkdir_p (build_out_dir out_root stamp query) fs)).
Proof.
  cbv zeta. repeat match goal with |- _ /\ _ => split end.
  1-4: unfold main_kms; destruct page as [soup|];
       [destruct (find_target_table soup) as [[table idx]|] eqn:Hft;
        [destruct (extract_rows table idx) as [|row rows] eqn:Hrows;
         [|destruct (mkdir_p target_dir fs) as [fs1|] eqn:Hmk]|]|];
       cbn [fst]; code_case.
  5-8: unfold main_search; cbv zeta;
       destruct (effective_query arg_query typed) as [|c q] eqn:Hq;
       [|destruct (path_exists fs docs_dir) eqn:Hex; cbn [negb];
         [destruct (iter_pdfs docs_dir fs) as [|pdf pdfs] eqn:Hpdfs;
          [|destruct (mkdir_p _ fs) as [fs1|] eqn:Hmk;
            [destruct (foldl _ _ _) as [[matched total] fs2]|]]|]];
       cbn [run_outcome]; code_case.
  - done.
  - by exists soup.
  - by exists soup, table, idx.
  - exists soup, table, idx. rewrite Hrows. by repeat split.
  - done.
  - by split.
  - by repeat split.
  - by repeat split.
Qed.

Lemma exit_codes_witness :
  (main_kms (lib := Sample.lib) None html_server (lit "downloads") ∅).1 = Exit 1.
Proof.
  apply (proj1 (exit_codes (lib := Sample.lib) None html_server (lit "downloads") ∅
                  sample_engine None [] [] [] [] false)).
  reflexivity.
Defined.

(** C8, as stated, fails: the five conditions do not have five codes. A
    page without a usable table ends the downloader with 2, and so does a
    missing documents directory the search; a table without rows and a
    directory without PDFs both end with 3. *)
Lemma exit_codes_counterexample :
  (main_kms (lib := Sample.lib) (Some [menu_table]) html_server (lit "downloads") ∅).1
    = Exit 2
  /\ run_outcome (main_search (lib := Sample.lib) sample_engine (Some (lit "torque")) []
                    (lit "missing") (lit "search_output") (lit "2025") false corpus)
     = Exit 2
  /\ (main_kms (lib := Sample.lib) (Some [empty_catalog_table]) html_server
        (lit "downloads") ∅).1 = Exit 3
  /\ run_outcome (main_search (lib := Sample.lib) sample_engine (Some (lit "torque")) []
                    (lit "docs") (lit "search_output") (lit "2025") false
                    {[ lit "docs" := Dir ]})
     = Exit 3.
Proof. vm_compute. repeat split. Qed.


(** * What the sanitizers guarantee *)

Lemma spaced_lookup (b : bool) (t : pystr) (i : nat) (c : N) :
  spaced b t = true -> t !! i = Some c -> isspace c = true ->
  c = SPACE /\ forall d, t !! S i = Some d -> isspace d = false.
Proof.
  revert b i. induction t as [|e t IH]; intros b i Hsp Hi Hc; [done|].
  destruct i as [|i]; cbn [spaced] in Hsp.
  - injection Hi as ->. rewrite Hc in Hsp.
    apply andb_true_iff in Hsp as [[Hsp _]%andb_true_iff Ht]. split; [by apply N.eqb_eq|].
    intros d Hd. destruct t as [|f t]; [done|]. injection Hd as ->.
    cbn [spaced] in Ht. destruct (isspace d); [|done]. by rewrite andb_false_r in Ht.
  - destruct (isspace e).
    + apply andb_true_iff in Hsp as [_ Ht]. by apply (IH true i).
    + by apply (IH false i).
Qed.

Lemma spaced_head (t : pystr) (c : N) :
  spaced true t = true -> head t = Some c -> isspace c = false.
Proof.
  destruct t as [|e t]; [done|]. intros Hsp [= ->]. cbn [spaced] in Hsp.
  destruct (isspace c); [|done]. by rewrite andb_false_r in Hsp.
Qed.

Lemma safe_name_of (n : nat) (t : pystr) :
  t <> [] -> length t <= n ->
  forallb (fun c => negb (illegal c)) t = true -> spaced true t = true ->
  safe_name n t.
Proof.
  intros Hne Hlen Hlegal Hsp. split; [done|]. split; [done|]. split; [|split].
  - intros c Hc%list_elem_of_In. rewrite forallb_forall in Hlegal.
    by apply negb_true_iff, Hlegal.
  - intros c. by apply spaced_head.
  - intros i c. by apply (spaced_lookup true).
Qed.

Lemma strip_legal (s : pystr) :
  forallb (fun c => negb (illegal c)) s = true ->
  forallb (fun c => negb (illegal c)) (strip s) = true.
Proof. intros Hs. by apply rstrip_forallb, lstrip_forallb. Qed.

Lemma sub_ws_strip_spaced (s : pystr) : spaced true (sub_ws (strip s)) = true.
Proof.
  unfold sub_ws. destruct (strip s) as [|c r] eqn:Hs; [done|].
  apply strip_head in Hs. cbn [sub_ws_from]. rewrite Hs. cbn [spaced]. rewrite Hs.
  apply spaced_sub_ws.
Qed.


(** X4: whatever query it is given, [sanitize_for_fs] returns a name that
    is safe as a folder name: not empty, at most 120 code points, free of
    the illegal characters, not starting with white space, and with single
    plain spaces only. *)
Theorem sanitize_for_fs_safe (name : pystr) : safe_name 120 (sanitize_for_fs name).
Proof.
  unfold sanitize_for_fs.
  destruct (take 120 (sub_ws (strip (sub_illegal name)))) as [|c r] eqn:Ht;
    cbn [or_default].
  - apply safe_name_of; [done | cbn; lia | reflexivity | reflexivity].
  - rewrite <- Ht. apply safe_name_of.
    + by rewrite Ht.
    + rewrite length_take. lia.
    + apply take_forallb, sub_ws_legal, strip_legal, sub_illegal_legal.
    + apply spaced_take, sub_ws_strip_spaced.
Qed.

(** * Paths *)

Lemma rfind_from_absent (c : N) (s : pystr) (i last : Z) :
  c ∉ s -> rfind_from c s i last = last.
Proof.
  revert i last. induction s as [|d s IH]; intros i last Hc; simpl; [done|].
  apply not_elem_of_cons in Hc as [Hd Hs]. rewrite IH by done.
  destruct (N.eqb_spec d c); [congruence | done].
Qed.

Lemma rfind_from_last (c : N) (a b : pystr) (i last : Z) :
  c ∉ b -> rfind_from c (a ++ c :: b) i last = (i + Z.of_nat (length a))%Z.
Proof.
  intros Hb. revert i last. induction a as [|d a IH]; intros i last; simpl.
  - rewrite N.eqb_refl, rfind_from_absent by done. lia.
  - rewrite IH. lia.
Qed.

Lemma basename_plain (b : pystr) : SLASH ∉ b -> basename b = b.
Proof. intros Hb. unfold basename, rfind. by rewrite rfind_from_absent. Qed.

Lemma basename_below (a b : pystr) : SLASH ∉ b -> basename (a ++ SLASH :: b) = b.
Proof.
  intros Hb. unfold basename, rfind. rewrite rfind_from_last by done.
  replace (Z.to_nat (0 + Z.of_nat (length a) + 1)) with (length (a ++ [SLASH]))
    by (rewrite length_app; simpl; lia).
  by rewrite (assoc_L _ a [SLASH] b : a ++ SLASH :: b = (a ++ [SLASH]) ++ b), drop_app_length.
Qed.

Lemma endswith_slash (a : pystr) :
  endswith [SLASH] a = true -> exists a', a = a' ++ [SLASH].
Proof.
  unfold endswith. cbn [rev app startswith].
  destruct (rev a) as [|c r] eqn:Hr; [done|].
  intros [Hc%N.eqb_eq _]%andb_true_iff. subst c. exists (rev r).
  by rewrite <- (rev_involutive a), Hr.
Qed.

(** A name without a slash, joined to a folder, is a direct child of it. *)
Lemma basename_path_join (a b : pystr) : SLASH ∉ b -> basename (path_join a b) = b.
Proof.
  intros Hb. unfold path_join.
  destruct (startswith [SLASH] b) eqn:Hstart.
  { destruct b as [|c b]; [done|]. cbn [startswith] in Hstart.
    apply andb_true_iff in Hstart as [Hc%N.eqb_eq _]. subst c.
    exfalso. apply Hb. by left. }
  destruct a as [|c a]; [by apply basename_plain|]. cbn [orb].
  destruct (endswith [SLASH] (c :: a)) eqn:Hend.
  - apply endswith_slash in Hend as [a' ->].
    rewrite <- app_assoc. by apply basename_below.
  - by apply basename_below.
Qed.

Lemma safe_name_no_slash (n : nat) (t : pystr) : safe_name n t -> SLASH ∉ t.
Proof. intros (_ & _ & Hlegal & _) Hin. by apply Hlegal in Hin. Qed.

(** X5: the folder of a run is a direct child of the output root, named by
    the time stamp, two underscores and the sanitized query: no query can
    make [build_out_dir] leave the output root. *)
Theorem build_out_dir_child (out_root stamp query : pystr) :
  SLASH ∉ stamp ->
  basename (build_out_dir out_root stamp query)
  = stamp ++ lit "__" ++ sanitize_for_fs query.
Proof.
  intros Hstamp. unfold build_out_dir. apply basename_path_join.
  rewrite !not_elem_of_app. split; [done|]. split.
  - intros Hin%list_elem_of_In. cbn in Hin. unfold SLASH in Hin. intuition discriminate.
  - eapply safe_name_no_slash, sanitize_for_fs_safe.
Qed.

Lemma build_out_dir_child_witness :
  basename (build_out_dir (lit "search_output") (lit "2025-01-01_00-00-00") (lit "../../etc"))
  = lit "2025-01-01_00-00-00" ++ lit "__" ++ sanitize_for_fs (lit "../../etc").
Proof.
  apply (build_out_dir_child (lit "search_output") (lit "2025-01-01_00-00-00") (lit "../../etc")).
  intros Hin%list_elem_of_In. cbn in Hin. unfold SLASH in Hin. intuition discriminate.
Defined.


(** * Links, rows and tables *)

Lemma find_elem_of {A} (f : A -> bool) (l : list A) (x : A) :
  List.find f l = Some x -> x ∈ l /\ f x = true.
Proof. intros [Hin Hf]%find_some. split; [by apply list_elem_of_In | done]. Qed.

Lemma find_none_all {A} (f : A -> bool) (l : list A) (x : A) :
  List.find f l = None -> x ∈ l -> f x = false.
Proof. intros Hnone Hin%list_elem_of_In. by eapply find_none. Qed.


(** X6: the link that [pick_pdf_link_from_cell] gives is one of the links
    of the cell; it is PDF-like whenever the cell has a PDF-like link at
    all, it is the first link of the cell when none is PDF-like, and there
    is none exactly when the cell has no link. *)
Theorem pick_pdf_link_from_cell_spec {lib : PyLib} (cell : Cell) :
  (forall a, pick_pdf_link_from_cell cell = Some a -> a ∈ cell_links cell)
  /\ (pick_pdf_link_from_cell cell = None <-> cell_links cell = [])
  /\ (forall a, a ∈ cell_links cell -> is_pdf_href a = true ->
      exists a', pick_pdf_link_from_cell cell = Some a' /\ is_pdf_href a' = true)
  /\ ((forall a, a ∈ cell_links cell -> is_pdf_href a = false) ->
      pick_pdf_link_from_cell cell = head (cell_links cell)).
Proof.
  unfold pick_pdf_link_from_cell.
  destruct (List.find is_pdf_href (cell_links cell)) as [p|] eqn:Hfind.
  - apply find_elem_of in Hfind as [Hin Hpdf]. split; [|split; [|split]].
    + by intros a [= <-].
    + split; [done|]. intros Hnil. rewrite Hnil in Hin. by apply elem_of_nil in Hin.
    + intros a _ _. eauto.
    + intros Hall. apply Hall in Hin. congruence.
  - split; [|split; [|split]].
    + intros a Ha. destruct (cell_links cell); [done|]. injection Ha as <-. by left.
    + by destruct (cell_links cell).
    + intros a Hin Hpdf. rewrite (find_none_all _ _ _ Hfind Hin) in Hpdf. done.
    + done.
Qed.


Section RowFacts.
Context {lib : PyLib}.


End RowFacts.



Section TableFacts.
Context {lib : PyLib}.

Lemma scan_header_row_elem (rows : list Row) (acc : option Row) (hr : Row) :
  scan_header_row rows acc = Some hr -> acc = Some hr \/ hr ∈ rows.
Proof.
  revert acc. induction rows as [|tr rows IH]; intros acc; simpl; [by left|].
  destruct (row_cells tr) as [|c cs] eqn:Hcells.
  - intros [?|?]%IH; [by left | right; by right].
  - destruct (existsb is_th (c :: cs)).
    + intros [= <-]. right. by left.
    + intros [Hacc|?]%IH; [|right; by right].
      destruct acc; [by left|]. injection Hacc as <-. right. by left.
Qed.

Lemma find_header_row_elem (table : Table) (hr : Row) :
  find_header_row table = Some hr -> hr ∈ table.
Proof.
  unfold find_header_row. destruct (List.find in_thead table) as [tr|] eqn:Hfind.
  - intros [= <-]. by apply find_elem_of in Hfind as [? _].
  - by intros [?|?]%scan_header_row_elem.
Qed.

Lemma marker_index_bound (headers : list pystr) (k r : nat) :
  marker_index headers k = Some r -> k <= r < k + length headers.
Proof.
  revert k. induction headers as [|h headers IH]; intros k; simpl; [done|].
  destruct (contains MARKER h); [intros [= <-]; lia|]. intros ?%IH. lia.
Qed.

Lemma max_cols_reached (rows : list Row) (i : nat) :
  i < max_cols rows -> exists tr, tr ∈ rows /\ i < length (row_cells tr).
Proof.
  unfold max_cols. induction rows as [|tr rows IH]; simpl; [lia|].
  intros Hi. destruct (decide (i < length (row_cells tr))) as [Hlt|Hge].
  - exists tr. split; [by left | done].
  - destruct IH as (tr' & Hin & Hlt); [lia|]. exists tr'. split; [by right | done].
Qed.

Lemma detect_designation_col_bound (table : Table) (i : nat) :
  detect_designation_col table = Some i ->
  exists tr, tr ∈ table /\ i < length (row_cells tr).
Proof.
  unfold detect_designation_col.
  destruct (marker_index _ 0) as [idx|] eqn:Hidx.
  - intros [= <-]. apply marker_index_bound in Hidx.
    destruct (find_header_row table) as [hr|] eqn:Hhr; simpl in Hidx; [|lia].
    exists hr. split; [by apply find_header_row_elem|].
    rewrite length_map in Hidx. lia.
  - destruct (existsb _ _); [|done]. intros (v & Hv & _)%argmax_spec.
    apply lookup_lt_Some in Hv. unfold link_counts in Hv.
    rewrite length_map, length_seq in Hv. by apply max_cols_reached.
Qed.

End TableFacts.

(** X8: the column that [detect_designation_col] returns exists in the
    table, some row has a cell at that index; a table without rows, or
    whose rows have no cells, yields no column. *)
Theorem detect_designation_col_in_range {lib : PyLib} (table : Table) :
  (forall i, detect_designation_col table = Some i ->
     exists tr, tr ∈ table /\ i < length (row_cells tr))
  /\ ((forall tr, tr ∈ table -> row_cells tr = []) ->
      detect_designation_col table = None).
Proof.
  split; [apply detect_designation_col_bound|].
  intros Hempty. destruct (detect_designation_col table) as [i|] eqn:Hd; [|done].
  apply detect_designation_col_bound in Hd as (tr & Hin & Hlt).
  rewrite (Hempty tr Hin) in Hlt. simpl in Hlt. lia.
Qed.

(** X9: [find_target_table] follows the first-match policy: its answer is
    a table of the page together with the column the classifier gives for
    it, no table before it yields a column, and there is no answer exactly
    when no table of the page yields one. *)
Theorem find_target_table_first {lib : PyLib} (tables : list Table) :
  (find_target_table tables = None <->
   Forall (fun t => detect_designation_col t = None) tables)
  /\ (forall t i, find_target_table tables = Some (t, i) ->
      exists pre post, tables = pre ++ t :: post
        /\ Forall (fun t' => detect_designation_col t' = None) pre
        /\ detect_designation_col t = Some i).
Proof.
  induction tables as [|t0 tables [IHnone IHsome]]; simpl.
  - split; [split; [constructor | done] | done].
  - destruct (detect_designation_col t0) as [i0|] eqn:Hd.
    + split.
      * split; [done|]. intros Hall. apply Forall_cons in Hall as [Hnone _]. congruence.
      * intros t i [= <- <-]. exists [], tables. by repeat split.
    + split.
      * rewrite IHnone. split; [by constructor | by intros [_ ?]%Forall_cons].
      * intros t i (pre & post & -> & Hpre & Ht)%IHsome.
        exists (t0 :: pre), post. split; [done|]. split; [by constructor | done].
Qed.


(** * Downloads *)

Lemma pretty_N_char_digit (x : N) : is_digit (N_of_ascii (pretty_N_char x)).
Proof. unfold pretty_N_char, is_digit. repeat case_match; cbn; lia. Qed.

Lemma pretty_N_go_digits (x : N) (s : string) :
  Forall is_digit (lit s) -> Forall is_digit (lit (pretty_N_go x s)).
Proof.
  revert s. induction (N.lt_wf_0 x) as [x _ IH]; intros s Hs.
  destruct (decide (x = 0%N)) as [->|Hx]; [by rewrite pretty_N_go_0|].
  rewrite pretty_N_go_step by lia. apply IH.
  - apply N.div_lt; lia.
  - cbn [lit]. constructor; [apply pretty_N_char_digit | done].
Qed.

Lemma decimal_digits (i : N) : Forall is_digit (decimal i).
Proof.
  unfold decimal, pretty, pretty_N. destruct (decide (i = 0%N)).
  - repeat constructor; unfold is_digit; cbn; lia.
  - apply pretty_N_go_digits. constructor.
Qed.

Lemma decimal_plain (i : N) (c : N) : c ∈ decimal i -> c <> SLASH /\ c <> DOT.
Proof.
  intros Hc. pose proof (decimal_digits i) as Hd. rewrite Forall_forall in Hd.
  apply Hd in Hc. unfold is_digit, SLASH, DOT in *. lia.
Qed.

Lemma startswith_app (p t : pystr) : startswith p (p ++ t) = true.
Proof. induction p as [|c p IH]; [by destruct t|]. simpl. by rewrite N.eqb_refl, IH. Qed.

Lemma endswith_app (a x : pystr) : endswith x (a ++ x) = true.
Proof. unfold endswith. rewrite rev_app_distr. apply startswith_app. Qed.

Lemma app_neq_self (p x : pystr) : x <> [] -> p ++ x <> p.
Proof.
  intros Hx Heq. apply Hx. apply (app_inv_head p). by rewrite app_nil_r.
Qed.

Lemma path_join_below (a b : pystr) :
  SLASH ∉ b -> b <> [] ->
  exists pre, dir_prefix pre /\ forall t, path_join a (b ++ t) = pre ++ b ++ t.
Proof.
  intros Hb Hne. destruct b as [|c b]; [done|].
  assert (Hc : (SLASH =? c)%N = false).
  { apply N.eqb_neq. intros <-. apply Hb. by left. }
  unfold path_join. destruct a as [|d a].
  - exists []. split; [by left|]. intros t. cbn [app startswith]. by rewrite Hc.
  - destruct (endswith [SLASH] (d :: a)) eqn:Hend.
    + exists (d :: a). split; [right; by apply endswith_slash|].
      intros t. cbn [app startswith]. by rewrite Hc.
    + exists ((d :: a) ++ [SLASH]). split; [right; by eexists|].
      intros t. cbn [app startswith]. rewrite Hc. cbn [andb orb].
      by rewrite <- !app_assoc.
Qed.

Lemma forallb_dot_false (name : pystr) (c : N) :
  c ∈ name -> c <> DOT -> forallb (N.eqb DOT) name = false.
Proof.
  intros Hin Hc. destruct (forallb (N.eqb DOT) name) eqn:Hall; [|done].
  rewrite forallb_forall in Hall. apply list_elem_of_In, Hall, N.eqb_eq in Hin.
  congruence.
Qed.

(** [splitext] cuts the extension [.pdf] off a name that has a character
    other than a dot, below any folder. *)
Lemma splitext_pdf (pre name : pystr) (c : N) :
  dir_prefix pre -> SLASH ∉ name -> c ∈ name -> c <> DOT ->
  splitext (pre ++ name ++ lit ".pdf") = (pre ++ name, lit ".pdf").
Proof.
  intros Hpre Hslash Hin Hc. unfold splitext.
  assert (Hdot : rfind DOT (pre ++ name ++ lit ".pdf")
                 = Z.of_nat (length (pre ++ name))).
  { unfold rfind. rewrite app_assoc. change (lit ".pdf") with (DOT :: lit "pdf").
    rewrite rfind_from_last; [lia|].
    intros Hd%list_elem_of_In. cbn in Hd. unfold DOT in Hd. intuition discriminate. }
  assert (Hnopdf : SLASH ∉ name ++ lit ".pdf").
  { rewrite not_elem_of_app. split; [done|].
    intros Hd%list_elem_of_In. cbn in Hd. unfold SLASH in Hd. intuition discriminate. }
  assert (Hsep : rfind SLASH (pre ++ name ++ lit ".pdf") = (Z.of_nat (length pre) - 1)%Z).
  { unfold rfind. destruct Hpre as [->|[x ->]].
    - by rewrite rfind_from_absent.
    - rewrite <- app_assoc. cbn [app]. rewrite rfind_from_last by done.
      rewrite length_app. cbn [length]. lia. }
  rewrite Hdot, Hsep, Nat2Z.id.
  replace (Z.to_nat (Z.of_nat (length pre) - 1 + 1)) with (length pre) by lia.
  rewrite length_app.
  destruct (Z.ltb_spec (Z.of_nat (length pre) - 1) (Z.of_nat (length pre + length name)))
    as [_|Hge]; [|lia].
  rewrite <- length_app, app_assoc, take_app_length, drop_app_length.
  by rewrite drop_app_length, (forallb_dot_false name c).
Qed.

Section DownloadFacts.
Context {lib : PyLib}.

Lemma guess_ext_pdf_href (content_type : option pystr) (url : pystr) :
  is_pdf_href url = true -> guess_ext content_type url = lit ".pdf".
Proof. unfold guess_ext. by intros ->. Qed.

Lemma guess_ext_nonempty (content_type : option pystr) (url : pystr) :
  guess_ext content_type url <> [].
Proof.
  assert (Hurl : url_ext url <> []).
  { unfold url_ext. by destruct (str_lower _). }
  unfold guess_ext. destruct (is_pdf_href url); [done|].
  destruct content_type as [[|c ct]|]; try done.
  unfold content_type_ext. destruct (decide _); [done|]. cbv zeta.
  by destruct (str_lower (default _ _)).
Qed.

(** The name that [unique_path] gives for a designation and [.pdf]. *)
Lemma unique_path_pdf (fs : FS) (folder stem : pystr) (c : N) :
  SLASH ∉ stem -> c ∈ stem -> c <> DOT ->
  exists pre name,
    unique_path (S (size fs)) fs folder stem (lit ".pdf")
      = Some (pre ++ name ++ lit ".pdf")
    /\ fs !! (pre ++ name ++ lit ".pdf") = None
    /\ dir_prefix pre /\ (SLASH ∉ name) /\ (c ∈ name).
Proof.
  intros Hslash Hin Hc.
  assert (Hne : stem <> []) by (intros ->; by apply elem_of_nil in Hin).
  unfold unique_path.
  destruct (path_exists fs (path_join folder (stem ++ lit ".pdf"))) eqn:Hex; cbn [negb].
  - destruct (unique_path_loop_total folder stem (lit ".pdf") (S (size fs)) fs 1)
      as [p Hp]; [lia|].
    destruct (unique_path_loop_first_free _ _ _ _ _ _ _ Hp) as (j & _ & -> & Hfree & _).
    set (name := stem ++ lit " (" ++ decimal j ++ lit ")").
    assert (Hname : SLASH ∉ name).
    { unfold name. rewrite !not_elem_of_app. split; [done|]. split; [|split].
      - intros Hd%list_elem_of_In. cbn in Hd. unfold SLASH in Hd. intuition discriminate.
      - intros Hd%decimal_plain. by destruct Hd.
      - intros Hd%list_elem_of_In. cbn in Hd. unfold SLASH in Hd. intuition discriminate. }
    destruct (path_join_below folder name Hname) as (pre & Hpre & Hjoin).
    { unfold name. by destruct stem. }
    exists pre, name. rewrite Hp.
    assert (Hcand : candidate folder stem (lit ".pdf") j = pre ++ name ++ lit ".pdf").
    { unfold candidate. rewrite <- Hjoin. unfold name. by rewrite <- !app_assoc. }
    rewrite Hcand in *. split; [done|]. split.
    + unfold path_exists in Hfree. by destruct (fs !! _).
    + split; [done|]. split; [done|]. unfold name. apply elem_of_app. by left.
  - destruct (path_join_below folder stem Hslash Hne) as (pre & Hpre & Hjoin).
    exists pre, stem. rewrite Hjoin in *. split; [done|]. split.
    + unfold path_exists in Hex. by destruct (fs !! _).
    + done.
Qed.

Lemma fetch_one_counts (net : Net) (target_dir : pystr) (ok err : nat) (fs : FS)
    (row : pystr * pystr) :
  (fetch_one net target_dir (ok, err, fs) row).1.1
  + (fetch_one net target_dir (ok, err, fs) row).1.2 = S (ok + err).
Proof.
  unfold fetch_one.
  destruct (unique_path_loop_total target_dir (fst row) (lit ".pdf") (S (size fs)) fs 1)
    as [p Hp]; [lia|].
  assert (Hsome : is_Some (unique_path (S (size fs)) fs target_dir (fst row) (lit ".pdf"))).
  { unfold unique_path. destruct (negb _); eauto. }
  destruct Hsome as [dest ->].
  destruct (download net _ dest fs) as [[saved|] fs']; simpl; lia.
Qed.

Lemma foldl_fetch_one_counts (net : Net) (target_dir : pystr)
    (rows : list (pystr * pystr)) (ok err : nat) (fs : FS) :
  (foldl (fetch_one net target_dir) (ok, err, fs) rows).1.1
  + (foldl (fetch_one net target_dir) (ok, err, fs) rows).1.2 = ok + err + length rows.
Proof.
  revert ok err fs. induction rows as [|row rows IH]; intros ok err fs;
    cbn [foldl length]; [cbn [fst snd]; lia|].
  pose proof (fetch_one_counts net target_dir ok err fs row) as Hone.
  destruct (fetch_one net target_dir (ok, err, fs) row) as [[ok1 err1] fs1].
  rewrite IH. cbn [fst snd] in Hone. lia.
Qed.

End DownloadFacts.

(** X10: a download that succeeds has written the body of the response
    under the stem of the given path followed by the guessed extension,
    which is never empty; its temporary [.part] file is gone, and every
    other path is as it was. A request that fails leaves the file system
    as it was. *)
Theorem download_effect {lib : PyLib} (net : Net) (file_url dest_path : pystr)
    (fs : FS) :
  (net file_url = None -> download net file_url dest_path fs = (None, fs))
  /\ (forall p fs', download net file_url dest_path fs = (Some p, fs') ->
      exists r, net file_url = Some r
        /\ guess_ext (content_type r) file_url <> []
        /\ p = (splitext dest_path).1 ++ guess_ext (content_type r) file_url
        /\ fs' !! p = Some (File (body r))
        /\ fs' !! (p ++ lit ".part") = None
        /\ forall q, q <> p -> q <> p ++ lit ".part" -> fs' !! q = fs !! q).
Proof.
  unfold download. split; [by intros ->|]. intros p fs'.
  destruct (net file_url) as [r|]; [|done].
  set (dest := (splitext dest_path).1 ++ guess_ext (content_type r) file_url).
  assert (Htmp : dest ++ lit ".part" <> dest) by (by apply app_neq_self).
  assert (Hdone : forall p0 fs0,
            (Some dest, <[dest := File (body r)]>
                          (delete (dest ++ lit ".part")
                             (<[dest ++ lit ".part" := File (body r)]> fs)))
            = (Some p0, fs0) ->
            exists r0, Some r = Some r0
              /\ guess_ext (content_type r0) file_url <> []
              /\ p0 = (splitext dest_path).1 ++ guess_ext (content_type r0) file_url
              /\ fs0 !! p0 = Some (File (body r0))
              /\ fs0 !! (p0 ++ lit ".part") = None
              /\ forall q, q <> p0 -> q <> p0 ++ lit ".part" -> fs0 !! q = fs !! q).
  { intros p0 fs0 [= <- <-]. exists r. split; [done|].
    split; [apply guess_ext_nonempty|]. split; [done|]. split.
    - apply lookup_insert_eq.
    - split.
      + rewrite lookup_insert_ne by done. apply lookup_delete_eq.
      + intros q Hq Hqt.
        by rewrite lookup_insert_ne, lookup_delete_ne, lookup_insert_ne. }
  destruct (fs !! (dest ++ lit ".part")) as [[?|]|]; try done;
    destruct (<[dest ++ lit ".part" := File (body r)]> fs !! dest) as [[?|]|];
    try done; apply Hdone.
Qed.

(** X11: when the resolved URL of a row is PDF-like and the designation has
    no slash and some character other than a dot, as a sanitized
    designation with a letter has, one round of the download loop counts the
    row once, as a success or as a failure, and changes or removes no entry
    of the file system, except maybe a [.part] file: nothing is overwritten. *)
Theorem fetch_one_keeps_existing {lib : PyLib} (net : Net) (target_dir : pystr)
    (ok err : nat) (fs : FS) (designation href : pystr) (c : N) :
  SLASH ∉ designation -> c ∈ designation -> c <> DOT ->
  is_pdf_href (urljoin URL href) = true ->
  (fetch_one net target_dir (ok, err, fs) (designation, href)).1.1
  + (fetch_one net target_dir (ok, err, fs) (designation, href)).1.2 = S (ok + err)
  /\ forall q n, fs !! q = Some n -> endswith (lit ".part") q = false ->
       (fetch_one net target_dir (ok, err, fs) (designation, href)).2 !! q = Some n.
Proof.
  intros Hslash Hin Hc Hpdf. split; [apply fetch_one_counts|].
  intros q n Hq Hpart. unfold fetch_one. cbn [fst snd].
  destruct (unique_path_pdf fs target_dir designation c Hslash Hin Hc)
    as (pre & name & -> & Hfree & Hpre & Hname & Hcn).
  unfold download. destruct (net (urljoin URL href)) as [r|]; [|done].
  rewrite (guess_ext_pdf_href _ _ Hpdf), (splitext_pdf pre name c) by done.
  cbn [fst]. set (dest := pre ++ name ++ lit ".pdf") in *.
  replace ((pre ++ name) ++ lit ".pdf") with dest by (unfold dest; by rewrite <- app_assoc).
  assert (Htmp : dest ++ lit ".part" <> dest) by (by apply app_neq_self).
  assert (Hqd : q <> dest) by congruence.
  assert (Hqt : q <> dest ++ lit ".part").
  { intros ->. by rewrite endswith_app in Hpart. }
  assert (Hfs1 : <[dest ++ lit ".part" := File (body r)]> fs !! dest = None)
    by (by rewrite lookup_insert_ne).
  destruct (fs !! (dest ++ lit ".part")) as [[?|]|]; rewrite ?Hfs1; cbn [snd];
    try done; by rewrite lookup_insert_ne, lookup_delete_ne, lookup_insert_ne.
Qed.

Lemma fetch_one_keeps_existing_witness :
  let fs : FS := <[lit "d/a.pdf" := File [1]%N]> {[ lit "d" := Dir ]} in
  let st := fetch_one (lib := Sample.lib) pdf_server (lit "d") (0, 0, fs)
              (lit "a", lit "files/a.pdf") in
  st.1.1 + st.1.2 = 1
  /\ forall q n, fs !! q = Some n -> endswith (lit ".part") q = false ->
       st.2 !! q = Some n.
Proof.
  apply (fetch_one_keeps_existing (lib := Sample.lib) pdf_server (lit "d") 0 0
           (<[lit "d/a.pdf" := File [1]%N]> {[ lit "d" := Dir ]})
           (lit "a") (lit "files/a.pdf") 97%N).
  - intros Hd%list_elem_of_In. cbn in Hd. unfold SLASH in Hd. intuition discriminate.
  - by left.
  - discriminate.
  - reflexivity.
Defined.

(** X12: a run of the downloader that gets as far as the downloads counts
    every extracted row exactly once, as a success or as a failure: one
    failed download does not end the loop. *)
Theorem main_kms_counts_rows {lib : PyLib} (page : option (list Table)) (net : Net)
    (target_dir : pystr) (fs fs' : FS) (ok err : nat) :
  main_kms page net target_dir fs = (Exit 0, (ok, err, fs')) ->
  exists soup table idx,
    page = Some soup /\ find_target_table soup = Some (table, idx)
    /\ ok + err = length (extract_rows table idx)
    /\ 0 < length (extract_rows table idx).
Proof.
  unfold main_kms. destruct page as [soup|]; [|done].
  destruct (find_target_table soup) as [[table idx]|] eqn:Hft; [|done].
  destruct (extract_rows table idx) as [|row rows] eqn:Hrows; [done|].
  destruct (mkdir_p target_dir fs) as [fs1|]; [|done].
  pose proof (foldl_fetch_one_counts net target_dir (row :: rows) 0 0 fs1) as Hcount.
  destruct (foldl (fetch_one net target_dir) (0, 0, fs1) (row :: rows))
    as [[ok1 err1] fs2].
  intros [= <- <- <-]. exists soup, table, idx.
  split; [done|]. split; [done|]. rewrite Hrows.
  cbn [fst snd length] in *. split; lia.
Qed.

Lemma main_kms_counts_rows_witness :
  exists soup table idx,
    Some [menu_table; catalog_table] = Some soup
    /\ find_target_table (lib := Sample.lib) soup = Some (table, idx)
    /\ 1 + 0 = length (extract_rows (lib := Sample.lib) table idx)
    /\ 0 < length (extract_rows (lib := Sample.lib) table idx).
Proof.
  apply (main_kms_counts_rows (lib := Sample.lib) (Some [menu_table; catalog_table])
           pdf_server (lit "downloads") ∅
           (main_kms (lib := Sample.lib) (Some [menu_table; catalog_table])
              pdf_server (lit "downloads") ∅).2.2).
  vm_compute. reflexivity.
Defined.


(** * Searching a page *)

Lemma dedup_from_fixed (seen : gset RectKey) (rects : list Rect) :
  NoDup (rect_key <$> rects) ->
  (forall r, r ∈ rects -> rect_key r ∉ seen) ->
  dedup_from seen rects = rects.
Proof.
  revert seen. induction rects as [|r rects IH]; intros seen Hnd Hfresh; simpl; [done|].
  apply NoDup_cons in Hnd as [Hr Hnd].
  rewrite decide_False by (apply Hfresh; by left). f_equal. apply IH; [done|].
  intros r' Hr' [Hk%elem_of_singleton|Hs]%elem_of_union.
  - apply Hr. rewrite <- Hk. by apply list_elem_of_fmap_2.
  - by apply (Hfresh r'); [right|].
Qed.

(** X13: [_dedup_rects] changes nothing in a list whose rounded keys are
    all different, so applying it twice is the same as applying it once;
    and it never returns more rectangles than it is given. *)
Theorem dedup_rects_idempotent (rects : list Rect) :
  _dedup_rects (_dedup_rects rects) = _dedup_rects rects
  /\ (NoDup (rect_key <$> rects) -> _dedup_rects rects = rects)
  /\ length (_dedup_rects rects) <= length rects.
Proof.
  unfold _dedup_rects. split; [|split].
  - apply dedup_from_fixed; [apply dedup_from_nodup|].
    intros r _. apply not_elem_of_empty.
  - intros Hnd. apply dedup_from_fixed; [done|]. intros r _. apply not_elem_of_empty.
  - apply sublist_length, dedup_from_sublist.
Qed.

(** X14: every rectangle that [_search_rects] returns was found by the
    engine for the query as typed, in lower case, in upper case or
    capitalized; every rectangle the engine finds for one of these is
    represented in the result by a rectangle of the same rounded key; and
    no two rectangles of the result have the same rounded key. *)
Theorem search_rects_sound {lib : PyLib} (page : Page) (query : pystr) :
  (forall r, r ∈ _search_rects page query ->
     exists v, v ∈ [query; str_lower query; str_upper query; str_capitalize query]
       /\ r ∈ search_for page v)
  /\ (forall v r,
        v ∈ [query; str_lower query; str_upper query; str_capitalize query] ->
        r ∈ search_for page v ->
        rect_key r ∈ rect_key <$> _search_rects page query)
  /\ NoDup (rect_key <$> _search_rects page query).
Proof.
  unfold _search_rects, _dedup_rects, variants. split; [|split].
  - intros r Hr. eapply elem_of_sublist in Hr; [|apply dedup_from_sublist].
    apply list_elem_of_In, in_flat_map in Hr as (v & Hv & Hr).
    exists v. split; [|by apply list_elem_of_In].
    by apply elem_of_remove_dups, list_elem_of_In.
  - intros v r Hv Hr.
    destruct (dedup_from_covers ∅
                (flat_map (search_for page)
                   (remove_dups [query; str_lower query; str_upper query;
                                 str_capitalize query])) r) as [Hs|Ho]; [| |done].
    + apply list_elem_of_In, in_flat_map. exists v.
      split; [by apply list_elem_of_In, elem_of_remove_dups | by apply list_elem_of_In].
    + by apply not_elem_of_empty in Hs.
  - apply dedup_from_nodup.
Qed.

Lemma search_rects_sound_witness :
  rect_key rect_a
  ∈ rect_key <$> _search_rects (lib := Sample.lib) (torque_page 0) (lit "Torque").
Proof.
  apply (proj1 (proj2 (search_rects_sound (lib := Sample.lib) (torque_page 0)
                         (lit "Torque"))) (lit "torque") rect_a).
  - right. by left.
  - by left.
Defined.

(** * Counting the hits of a document *)

Lemma foldl_annotate (page : Page) (rects : list Rect) (hits : N)
    (annots : list (N * Rect)) :
  foldl (annotate page) (hits, annots) rects
  = ((hits + N.of_nat (length rects))%N, annots ++ map (pair (number page)) rects).
Proof.
  revert hits annots. induction rects as [|r rects IH]; intros hits annots.
  - cbn. f_equal; [lia | by rewrite app_nil_r].
  - cbn [foldl]. unfold annotate at 2. cbn [fst snd]. rewrite IH.
    cbn [length map]. f_equal; [lia | by rewrite <- app_assoc].
Qed.

Section CountFacts.
Context {lib : PyLib}.

Lemma scan_pages_spec (pages : list Page) (query : pystr)
    (hits : N) (pset : gset N) (annots : list (N * Rect)) :
  exists pset',
    scan_pages pages query hits pset annots
    = ((hits + N.of_nat (length (highlights pages query)))%N, pset',
       annots ++ highlights pages query)
    /\ forall p, p ∈ pset' <->
         p ∈ pset \/ exists page, page ∈ pages /\ p = (number page + 1)%N
                       /\ _search_rects page query <> [].
Proof.
  revert hits pset annots.
  induction pages as [|page pages IH]; intros hits pset annots.
  - exists pset. cbn. split; [f_equal; [f_equal; lia | by rewrite app_nil_r]|].
    intros p. split; [by left|]. intros [?|(page & Hin & _)]; [done|].
    by apply elem_of_nil in Hin.
  - cbn [scan_pages]. unfold highlights. cbn [flat_map]. fold (highlights pages query).
    destruct (_search_rects page query) as [|r rects] eqn:Hrects.
    + destruct (IH hits pset annots) as (pset' & -> & Hp). exists pset'.
      split; [done|]. intros p. rewrite Hp. split.
      * intros [?|(pg & Hin & Hpg)]; [by left|]. right. exists pg. split; [by right|done].
      * intros [?|(pg & [->|Hin]%elem_of_cons & Hpg)]; [by left| |].
        -- by destruct Hpg as [_ ?].
        -- right. by exists pg.
    + rewrite foldl_annotate.
      destruct (IH (hits + N.of_nat (length (r :: rects)))%N
                  ({[(number page + 1)%N]} ∪ pset)
                  (annots ++ map (pair (number page)) (r :: rects)))
        as (pset' & -> & Hp).
      exists pset'. split.
      * rewrite length_app, length_map, <- app_assoc. f_equal. f_equal. lia.
      * intros p. rewrite Hp, elem_of_union, elem_of_singleton. split.
        -- intros [[->|?]|(pg & Hin & Hpg)].
           ++ right. exists page. split; [by left|]. split; [done|]. by rewrite Hrects.
           ++ by left.
           ++ right. exists pg. split; [by right|done].
        -- intros [?|(pg & [->|Hin]%elem_of_cons & Hpg)].
           ++ left. by right.
           ++ left. left. by destruct Hpg.
           ++ right. by exists pg.
Qed.

End CountFacts.

(** X15: when [highlight_file] returns, the count of hits is the number of
    rectangles that [_search_rects] finds on the pages of the document, the
    set of pages holds exactly the numbers, counted from 1, of the pages
    where it finds some, and a copy is saved exactly when there is a hit:
    under the name of the PDF in the output folder, with one highlight for
    each of these rectangles, in the order of the pages. *)
Theorem highlight_file_counts {lib : PyLib} (engine : Engine)
    (pdf_path query out_dir : pystr) (fs fs' : FS)
    (hits : N) (pages : gset N) (out_path : option pystr) :
  highlight_file engine pdf_path query out_dir fs = (Some (hits, pages, out_path), fs') ->
  exists bytes doc,
    fs !! pdf_path = Some (File bytes) /\ engine bytes = Some doc
    /\ hits = N.of_nat (length (highlights (doc_pages doc) query))
    /\ (forall p, p ∈ pages <->
          exists page, page ∈ doc_pages doc /\ p = (number page + 1)%N
            /\ _search_rects page query <> [])
    /\ (hits = 0%N -> out_path = None /\ fs' = fs)
    /\ ((0 < hits)%N ->
        out_path = Some (path_join out_dir (basename pdf_path))
        /\ fs' !! path_join out_dir (basename pdf_path)
           = Some (File (doc_save doc (highlights (doc_pages doc) query)))).
Proof.
  unfold highlight_file.
  destruct (fs !! pdf_path) as [[bytes|]|]; try done.
  destruct (engine bytes) as [doc|] eqn:Hdoc; [|done].
  destruct (scan_pages_spec (doc_pages doc) query 0 ∅ []) as (pset' & -> & Hp).
  rewrite N.add_0_l, app_nil_l.
  assert (Hpages : forall p, p ∈ pset' <->
            exists page, page ∈ doc_pages doc /\ p = (number page + 1)%N
              /\ _search_rects page query <> []).
  { intros p. rewrite Hp. split; [|by right].
    intros [Hin|?]; [by apply not_elem_of_empty in Hin | done]. }
  destruct (N.ltb_spec 0 (N.of_nat (length (highlights (doc_pages doc) query))))
    as [Hpos|Hzero].
  - destruct (mkdir_p out_dir fs) as [fs1|]; [|done].
    destruct (fs1 !! path_join out_dir (basename pdf_path)) as [[?|]|] eqn:Hout;
      intros [= <- <- <- <-] || done; exists bytes, doc;
      (split; [done|]; split; [done|]; split; [done|]; split; [done|];
       split; [lia|]; intros _; split; [done | apply lookup_insert_eq]).
  - intros [= <- <- <- <-]. exists bytes, doc.
    split; [done|]. split; [done|]. split; [done|]. split; [done|].
    split; [done | lia].
Qed.

Lemma highlight_file_counts_witness :
  exists bytes doc,
    corpus !! lit "docs/a.pdf" = Some (File bytes) /\ sample_engine bytes = Some doc
    /\ 1%N = N.of_nat (length (highlights (lib := Sample.lib) (doc_pages doc) (lit "torque")))
    /\ (forall p, p ∈ ({[2%N]} : gset N) <->
          exists page, page ∈ doc_pages doc /\ p = (number page + 1)%N
            /\ _search_rects (lib := Sample.lib) page (lit "torque") <> [])
    /\ (1%N = 0%N -> Some (lit "out/run/a.pdf") = None
        /\ (highlight_file (lib := Sample.lib) sample_engine (lit "docs/a.pdf")
              (lit "torque") (lit "out/run") corpus).2 = corpus)
    /\ ((0 < 1)%N ->
        Some (lit "out/run/a.pdf")
          = Some (path_join (lit "out/run") (basename (lit "docs/a.pdf")))
        /\ (highlight_file (lib := Sample.lib) sample_engine (lit "docs/a.pdf")
              (lit "torque") (lit "out/run") corpus).2
           !! path_join (lit "out/run") (basename (lit "docs/a.pdf"))
           = Some (File (doc_save doc
                           (highlights (lib := Sample.lib) (doc_pages doc) (lit "torque"))))).
Proof.
  apply (highlight_file_counts (lib := Sample.lib) sample_engine
           (lit "docs/a.pdf") (lit "torque") (lit "out/run") corpus).
  vm_compute. reflexivity.
Defined.


(** * Runs of the search *)

Lemma strongly_sorted_strict (l : list N) :
  StronglySorted N.le l -> NoDup l -> StronglySorted N.lt l.
Proof.
  induction 1 as [|x l Hl IH Hx]; intros Hnd; [constructor|].
  apply NoDup_cons in Hnd as [Hnx Hnd]. constructor; [by apply IH|].
  rewrite Forall_forall in *. intros y Hy. specialize (Hx y Hy).
  assert (x <> y) by (intros ->; by apply Hnx, list_elem_of_In). lia.
Qed.

Lemma sorted_pages (hits : N) (pset : gset N) :
  pages_agree hits pset -> (0 < hits)%N ->
  merge_sort N.le (elements pset) <> []
  /\ StronglySorted N.lt (merge_sort N.le (elements pset))
  /\ Forall (fun p => (1 <= p)%N) (merge_sort N.le (elements pset)).
Proof.
  intros [Hne Hge] Hpos.
  pose proof (merge_sort_Permutation N.le (elements pset)) as Hperm.
  split; [|split].
  - intros Hnil. rewrite Hnil in Hperm. symmetry in Hperm.
    apply Permutation_nil_r in Hperm. apply elements_empty_inv in Hperm.
    apply (proj2 Hne) in Hpos. apply Hpos. by apply leibniz_equiv.
  - apply strongly_sorted_strict.
    + apply StronglySorted_merge_sort; apply _.
    + rewrite Hperm. apply NoDup_elements.
  - rewrite Hperm. apply Forall_forall. intros p Hp.
    apply Hge. by apply elem_of_elements.
Qed.

Lemma foldr_insert_dirs (l : list pystr) (fs : FS) (d : pystr) :
  d ∈ l -> foldr (fun d m => <[d := Dir]> m) fs l !! d = Some Dir.
Proof.
  induction l as [|a l IH]; simpl; [by intros ?%elem_of_nil|].
  intros Hd. destruct (decide (a = d)) as [->|Hne]; [apply lookup_insert_eq|].
  rewrite lookup_insert_ne by done. apply IH.
  by apply elem_of_cons in Hd as [->|?].
Qed.

Lemma foldr_insert_dirs_id (l : list pystr) (fs : FS) :
  (forall d, d ∈ l -> fs !! d = Some Dir) ->
  foldr (fun d m => <[d := Dir]> m) fs l = fs.
Proof.
  induction l as [|a l IH]; simpl; [done|]. intros Hl.
  rewrite IH by (intros d Hd; apply Hl; by right).
  apply insert_id, Hl. by left.
Qed.

Lemma mkdir_p_made (p : pystr) (fs fs1 : FS) :
  mkdir_p p fs = Some fs1 -> dirs_made p fs1.
Proof.
  unfold mkdir_p. destruct (existsb _ _); [done|]. intros [= <-] d Hd.
  by apply foldr_insert_dirs.
Qed.

Lemma mkdir_p_again (p : pystr) (fs : FS) : dirs_made p fs -> mkdir_p p fs = Some fs.
Proof.
  intros Hmade. unfold mkdir_p.
  assert (Hfile : existsb (is_file fs) (ancestors_from [] p) = false).
  { destruct (existsb _ _) eqn:Hex; [|done].
    apply existsb_exists in Hex as (d & Hd%list_elem_of_In & Hf).
    unfold is_file in Hf. by rewrite (Hmade d Hd) in Hf. }
  rewrite Hfile. f_equal. by apply foldr_insert_dirs_id.
Qed.

Section RunFacts.
Context {lib : PyLib}.

Lemma highlight_file_agree (engine : Engine) (pdf_path query out_dir : pystr)
    (fs fs' : FS) (hits : N) (pages : gset N) (out_path : option pystr) :
  highlight_file engine pdf_path query out_dir fs = (Some (hits, pages, out_path), fs') ->
  pages_agree hits pages
  /\ forall saved, out_path = Some saved -> saved = path_join out_dir (basename pdf_path).
Proof.
  unfold highlight_file.
  destruct (fs !! pdf_path) as [[bytes|]|]; try done.
  destruct (engine bytes) as [doc|]; [|done].
  pose proof (scan_pages_start (doc_pages doc) query) as Hagree.
  destruct (scan_pages (doc_pages doc) query 0 ∅ []) as [[h ps] annots].
  cbn [fst snd] in Hagree. destruct (0 <? h)%N.
  - destruct (mkdir_p out_dir fs) as [fs1|]; [|done].
    destruct (fs1 !! _) as [[?|]|]; intros [= <- <- <- <-] || done;
      (split; [done|]; by intros saved [= <-]).
  - intros [= <- <- <- <-]. split; [done|]. by intros saved.
Qed.

(** One round of the loop of [main]: nothing changes, or one entry is
    added to [matched_files] and its copy is written. *)
Lemma scan_one_step (engine : Engine) (query out_dir : pystr)
    (matched : list (pystr * N * list N)) (total : N) (fs : FS) (pdf : pystr) :
  dirs_made out_dir fs ->
  scan_one engine query out_dir (matched, total, fs) pdf = (matched, total, fs)
  \/ exists saved hits pages content,
       scan_one engine query out_dir (matched, total, fs) pdf
       = (matched ++ [(saved, hits, pages)], (total + hits)%N,
          <[saved := File content]> fs)
       /\ entry_ok [pdf] out_dir (saved, hits, pages)
       /\ fs !! saved <> Some Dir.
Proof.
  intros Hmade. unfold scan_one.
  destruct (highlight_file engine pdf query out_dir fs) as [[[[hits pages] out]|] fs']
    eqn:Hrun.
  - pose proof (highlight_file_agree _ _ _ _ _ _ _ _ _ Hrun) as [Hagree Hsaved].
    revert Hrun. unfold highlight_file.
    destruct (fs !! pdf) as [[bytes|]|]; try done.
    destruct (engine bytes) as [doc|]; [|done].
    destruct (scan_pages (doc_pages doc) query 0 ∅ []) as [[h ps] annots].
    destruct (N.ltb_spec 0 h) as [Hpos|Hzero].
    + rewrite (mkdir_p_again out_dir fs Hmade).
      destruct (fs !! path_join out_dir (basename pdf)) as [[?|]|] eqn:Hout;
        intros [= <- <- <- <-] || done;
        (destruct (N.ltb_spec 0 h) as [_|?]; [|lia]); right;
        eexists _, _, _, _; (split; [reflexivity|]);
        (split; [|by rewrite Hout]);
        (split; [exists pdf; split; [by left | done]|]);
        (split; [done|]); by apply (sorted_pages h).
    + intros [= <- <- <- <-]. by left.
  - revert Hrun. unfold highlight_file.
    destruct (fs !! pdf) as [[bytes|]|]; try (intros [= <-]; by left).
    destruct (engine bytes) as [doc|]; [|intros [= <-]; by left].
    destruct (scan_pages (doc_pages doc) query 0 ∅ []) as [[h ps] annots].
    destruct (0 <? h)%N; [|done].
    rewrite (mkdir_p_again out_dir fs Hmade).
    destruct (fs !! _) as [[?|]|]; try done. intros [= <-]. by left.
Qed.

Lemma entry_ok_mono (pdfs pdfs' : list pystr) (out_dir : pystr)
    (m : pystr * N * list N) :
  (forall pdf, pdf ∈ pdfs -> pdf ∈ pdfs') -> entry_ok pdfs out_dir m ->
  entry_ok pdfs' out_dir m.
Proof.
  intros Hsub ((pdf & Hin & Hs) & Hrest). split; [|done]. exists pdf. auto.
Qed.

Lemma foldl_scan_one (engine : Engine) (query out_dir : pystr) (all : list pystr)
    (pdfs : list pystr) (matched : list (pystr * N * list N)) (total : N) (fs : FS) :
  dirs_made out_dir fs ->
  (forall pdf, pdf ∈ pdfs -> pdf ∈ all) ->
  exists added fs',
    foldl (scan_one engine query out_dir) (matched, total, fs) pdfs
    = (matched ++ added, (total + sum_hits added)%N, fs')
    /\ Forall (entry_ok all out_dir) added
    /\ length added <= length pdfs
    /\ (added = [] -> fs' = fs).
Proof.
  revert matched total fs.
  induction pdfs as [|pdf pdfs IH]; intros matched total fs Hmade Hall.
  - exists [], fs. cbn. rewrite app_nil_r, N.add_0_r. by repeat split.
  - cbn [foldl].
    destruct (scan_one_step engine query out_dir matched total fs pdf Hmade)
      as [->|(saved & hits & pages & content & -> & Hok & Hnodir)].
    + destruct (IH matched total fs Hmade) as (added & fs' & -> & Hadd & Hlen & Hfs).
      { intros p Hp. apply Hall. by right. }
      exists added, fs'. split; [done|]. split; [done|]. split; [cbn; lia | done].
    + destruct (IH (matched ++ [(saved, hits, pages)]) (total + hits)%N
                  (<[saved := File content]> fs))
        as (added & fs' & -> & Hadd & Hlen & Hfs).
      { intros d Hd. rewrite lookup_insert_ne; [by apply Hmade|].
        intros <-. by rewrite (Hmade saved Hd) in Hnodir. }
      { intros p Hp. apply Hall. by right. }
      exists ((saved, hits, pages) :: added), fs'. split.
      * rewrite <- app_assoc. cbn [app sum_hits foldr fst snd]. f_equal. f_equal.
        fold (sum_hits added). lia.
      * split; [|split; [cbn; lia | done]]. constructor; [|done].
        eapply entry_ok_mono; [|exact Hok].
        intros p ->%list_elem_of_singleton. apply Hall. by left.
Qed.

End RunFacts.

(** X16: the summary of a search is consistent. The total is the sum of
    the hits of the matched files; every matched file is the copy of a PDF
    of the corpus under its own name in the folder of the run, with a
    positive count of hits and a list of pages that is not empty, strictly
    ascending and counted from 1; there are no more matched files than
    PDFs; and at most ten files are opened, the first matched ones, none
    with [--no-open]. *)
Theorem main_search_summary {lib : PyLib} (engine : Engine) (arg_query : option pystr)
    (typed docs_dir out_root stamp : pystr) (no_open : bool) (fs : FS) :
  let r := main_search engine arg_query typed docs_dir out_root stamp no_open fs in
  let out_dir := build_out_dir out_root stamp (effective_query arg_query typed) in
  total_hits r = sum_hits (matched_files r)
  /\ Forall (entry_ok (iter_pdfs docs_dir fs) out_dir) (matched_files r)
  /\ length (matched_files r) <= length (iter_pdfs docs_dir fs)
  /\ length (opened r) <= 10
  /\ opened r `prefix_of` map (fun m => fst (fst m)) (matched_files r)
  /\ (no_open = true -> opened r = []).
Proof.
  cbv zeta. unfold main_search.
  destruct (effective_query arg_query typed) as [|c q] eqn:Hq.
  { cbn. repeat split; (done || lia || constructor || apply prefix_nil). }
  destruct (negb (path_exists fs docs_dir)).
  { cbn. repeat split; (done || lia || constructor || apply prefix_nil). }
  destruct (iter_pdfs docs_dir fs) as [|pdf pdfs] eqn:Hpdfs.
  { cbn. repeat split; (done || lia || constructor || apply prefix_nil). }
  destruct (mkdir_p _ fs) as [fs1|] eqn:Hmk.
  2: { cbn. repeat split; (done || lia || constructor || apply prefix_nil). }
  destruct (foldl_scan_one engine (c :: q) (build_out_dir out_root stamp (c :: q))
              (pdf :: pdfs) (pdf :: pdfs) [] 0%N fs1)
    as (added & fs2 & -> & Hadd & Hlen & _); [by eapply mkdir_p_made | done |].
  cbn [app matched_files total_hits opened].
  split; [lia|]. split; [done|]. split; [done|].
  destruct no_open; cbn [negb andb].
  - split; [cbn; lia|]. split; [apply prefix_nil | done].
  - unfold OPEN_AFTER_SAVE, OPEN_LIMIT. split; [|split; [|done]].
    + rewrite length_map, length_take. lia.
    + change (map (fun m : pystr * N * list N => m.1.1) (take 10 added))
        with ((fun m : pystr * N * list N => m.1.1) <$> take 10 added).
      rewrite fmap_take. apply prefix_take.
Qed.

(** X17: a search that runs through and matches no file leaves one trace,
    the folder of the run, which [main] makes before it scans and which
    stays empty: the file system at the end is the one right after that
    [mkdir], the total is zero and no file is opened. *)
Theorem main_search_no_match {lib : PyLib} (engine : Engine) (arg_query : option pystr)
    (typed docs_dir out_root stamp : pystr) (no_open : bool) (fs : FS) :
  let r := main_search engine arg_query typed docs_dir out_root stamp no_open fs in
  run_outcome r = Exit 0 -> matched_files r = [] ->
  mkdir_p (build_out_dir out_root stamp (effective_query arg_query typed)) fs
    = Some (run_fs r)
  /\ total_hits r = 0%N /\ opened r = [].
Proof.
  cbv zeta. unfold main_search.
  destruct (effective_query arg_query typed) as [|c q] eqn:Hq; [done|].
  destruct (negb (path_exists fs docs_dir)); [done|].
  destruct (iter_pdfs docs_dir fs) as [|pdf pdfs] eqn:Hpdfs; [done|].
  destruct (mkdir_p _ fs) as [fs1|] eqn:Hmk; [|done].
  destruct (foldl_scan_one engine (c :: q) (build_out_dir out_root stamp (c :: q))
              (pdf :: pdfs) (pdf :: pdfs) [] 0%N fs1)
    as (added & fs2 & -> & _ & _ & Hfs); [by eapply mkdir_p_made | done |].
  cbn [app matched_files total_hits opened run_fs run_outcome].
  intros _ ->. rewrite Hfs by done. split; [done|]. split; [done|].
  by destruct (negb no_open && OPEN_AFTER_SAVE).
Qed.

Lemma main_search_no_match_witness :
  let r := main_search (lib := Sample.lib) sample_engine (Some (lit "gasket")) []
             (lit "docs") (lit "search_output") (lit "2025") false corpus in
  mkdir_p (build_out_dir (lit "search_output") (lit "2025")
             (effective_query (Some (lit "gasket")) [])) corpus
    = Some (run_fs r)
  /\ total_hits r = 0%N /\ opened r = [].
Proof.
  apply (main_search_no_match (lib := Sample.lib) sample_engine (Some (lit "gasket")) []
           (lit "docs") (lit "search_output") (lit "2025") false corpus);
    vm_compute; reflexivity.
Defined.

(** X18: a run that does not end with code 0 has changed nothing: the
    downloader has made no folder and counted no download, the search has
    made no folder, matched no file and opened none. Every fatal check
    comes before the first write. *)
Theorem fatal_exit_leaves_no_trace {lib : PyLib} (page : option (list Table))
    (net : Net) (target_dir : pystr) (fs : FS) (engine : Engine)
    (arg_query : option pystr) (typed docs_dir out_root stamp : pystr)
    (no_open : bool) :
  ((main_kms page net target_dir fs).1 <> Exit 0 ->
   (main_kms page net target_dir fs).2 = (0, 0, fs))
  /\ (let r := main_search engine arg_query typed docs_dir out_root stamp no_open fs in
      run_outcome r <> Exit 0 ->
      run_fs r = fs /\ matched_files r = [] /\ total_hits r = 0%N /\ opened r = []).
Proof.
  split.
  - unfold main_kms. destruct page as [soup|]; [|done].
    destruct (find_target_table soup) as [[table idx]|]; [|done].
    destruct (extract_rows table idx) as [|row rows]; [done|].
    by destruct (mkdir_p target_dir fs).
  - cbv zeta. unfold main_search.
    destruct (effective_query arg_query typed) as [|c q]; [done|].
    destruct (negb (path_exists fs docs_dir)); [done|].
    destruct (iter_pdfs docs_dir fs) as [|pdf pdfs]; [done|].
    destruct (mkdir_p _ fs) as [fs1|]; [|done].
    by destruct (foldl _ _ _) as [[matched total] fs2].
Qed.

Lemma fatal_exit_leaves_no_trace_witness :
  (main_kms (lib := Sample.lib) (Some [menu_table]) pdf_server (lit "downloads") corpus).2
  = (0, 0, corpus).
Proof.
  apply (proj1 (fatal_exit_leaves_no_trace (lib := Sample.lib) (Some [menu_table])
                  pdf_server (lit "downloads") corpus sample_engine None [] [] [] []
                  false)).
  discriminate.
Defined.


(** * The header row *)

Lemma scan_header_row_chain (rows : list Row) (acc : option Row) :
  scan_header_row rows acc
  = match List.find has_th rows with
    | Some tr => Some tr
    | None => match acc with
              | Some a => Some a
              | None => List.find has_cells rows
              end
    end.
Proof.
  revert acc. induction rows as [|tr rows IH]; intros acc; cbn [scan_header_row List.find].
  - by destruct acc.
  - unfold has_th at 1, has_cells at 1.
    destruct (row_cells tr) as [|c cs] eqn:Hcells.
    + cbn [existsb]. apply IH.
    + destruct (existsb is_th (c :: cs)); [done|]. rewrite IH.
      destruct (List.find has_th rows); [done|]. by destruct acc.
Qed.

(** X19: the header row is chosen by a chain of three rules: the first row
    inside the [thead]; if there is none, the first row that has a [th]
    cell; if there is none either, the first row that has a cell at all.
    A table in which no row has a cell has no header row. *)
Theorem find_header_row_chain (table : Table) :
  find_header_row table
  = match List.find in_thead table with
    | Some tr => Some tr
    | None => match List.find has_th table with
              | Some tr => Some tr
              | None => List.find has_cells table
              end
    end
  /\ (find_header_row table = None <->
      forall tr, tr ∈ table -> in_thead tr = false /\ row_cells tr = []).
Proof.
  assert (Hchain : find_header_row table
                   = match List.find in_thead table with
                     | Some tr => Some tr
                     | None => match List.find has_th table with
                               | Some tr => Some tr
                               | None => List.find has_cells table
                               end
                     end).
  { unfold find_header_row. by rewrite scan_header_row_chain. }
  split; [done|]. rewrite Hchain. split.
  - destruct (List.find in_thead table) eqn:Hthead; [done|].
    destruct (List.find has_th table) eqn:Hth; [done|].
    intros Hcells tr Hin. split; [by eapply find_none_all|].
    pose proof (find_none_all _ _ tr Hcells Hin) as Hc. unfold has_cells in Hc.
    by destruct (row_cells tr).
  - intros Hall.
    destruct (List.find in_thead table) as [tr|] eqn:Hthead.
    { apply find_elem_of in Hthead as [Hin Ht]. apply Hall in Hin as [Hf _]. congruence. }
    destruct (List.find has_th table) as [tr|] eqn:Hth.
    { apply find_elem_of in Hth as [Hin Ht]. apply Hall in Hin as [_ Hc].
      unfold has_th in Ht. by rewrite Hc in Ht. }
    destruct (List.find has_cells table) as [tr|] eqn:Hcells; [|done].
    apply find_elem_of in Hcells as [Hin Ht]. apply Hall in Hin as [_ Hc].
    unfold has_cells in Ht. by rewrite Hc in Ht.
Qed.
